(** * SafeAI dashboard: the client-side session state of [App.tsx]

    A shallow embedding of the React component [App] of the SafeAI
    front end and of the properties of its session state: the bounded
    history of recent analyses, the incrementally maintained statistics
    (total, threats, running average risk) and the presentation mappers.

    The component exists in three variants.  The one that keeps the
    aggregates on the client (state hooks [totalAnalyses],
    [threatsDetected], [avgRiskScore], [latestResult], [history]) is the
    main object of this development (module-level definitions below).  The
    two other variants read their statistics from the server; the parts of
    them that matter here live in [Module Dashboard] (axios variant) and
    [Module Tiered] (three-tier variant).

    Modelling conventions.
    - A JavaScript [number] is an exact rational ([Q]) in the model of the
      page: what is proved of the numbers there is proved of the
      arithmetic expressions evaluated exactly.  The running average is
      modelled a second time on IEEE 754 binary64 numbers, as the page
      computes it, in [Module Double].
    - A [string] is a sequence of characters below 256 (Latin-1); [trim]
      strips the white space of ECMAScript in that range.
    - [useState] cells are the fields of the record [State]; a setter
      called with an updater function is the application of that function
      to the field.
    - Every event is handled on an up-to-date render: React flushes the
      updates of a handler before the next event is dispatched.
    - The constants captured by the closure [analyze] at the render in
      which the button was clicked ([input], [totalAnalyses]) are kept
      explicitly in the record [Closure] of the outstanding request.
    - The body of a response is any JSON value or text that is not JSON.
      The fields of an object that the page reads are optional (record
      [Data]); a field that is present has the JSON type the page expects
      (a number for [risk_score], a boolean for [is_safe], ...). *)

From Stdlib Require Import QArith ZArith List String Ascii Bool Arith Lia.
From Stdlib Require Import DecimalString Qfield Lqa Floats.
Import ListNotations.

Local Open Scope string_scope.
Local Open Scope Q_scope.

(** ** Numbers *)

(** [x < y] on JavaScript numbers, as a boolean. *)
Definition Qltb (x y : Q) : bool :=
  (Qnum x * QDen y <? Qnum y * QDen x)%Z.

(** [n] as a number. *)
Definition Qnat (n : nat) : Q := inject_Z (Z.of_nat n).

(** ** Strings *)

(** White space removed by [String.prototype.trim]: TAB, LF, VT, FF, CR,
    SP and NBSP. *)
Definition is_white_space (c : ascii) : bool :=
  match N_of_ascii c with
  | 9%N | 10%N | 11%N | 12%N | 13%N | 32%N | 160%N => true
  | _ => false
  end.

Fixpoint trim_start (s : string) : string :=
  match s with
  | EmptyString => EmptyString
  | String c rest => if is_white_space c then trim_start rest else s
  end.

(** Drops the trailing white space: a character is kept when something
    that is kept follows it or when it is not white space. *)
Fixpoint trim_end (s : string) : string :=
  match s with
  | EmptyString => EmptyString
  | String c rest =>
      match trim_end rest with
      | EmptyString => if is_white_space c then EmptyString else String c EmptyString
      | kept => String c kept
      end
  end.

(** [s.trim()] *)
Definition trim (s : string) : string := trim_end (trim_start s).

(** Truthiness of a string: the empty string is falsy. *)
Definition truthy (s : string) : bool :=
  match s with EmptyString => false | _ => true end.

(** [!s.trim()] *)
Definition blank (s : string) : bool := negb (truthy (trim s)).

(** [a || b] on strings. *)
Definition or_else (a b : string) : string := if truthy a then a else b.

(** [String(n)] for a non-negative integer [n]. *)
Definition String_of_nat (n : nat) : string :=
  NilEmpty.string_of_uint (Nat.to_uint n).

Fixpoint repeat_string (pad : string) (n : nat) : string :=
  match n with
  | O => EmptyString
  | S k => pad ++ repeat_string pad k
  end.

(** [s.padStart(target, pad)] *)
Definition padStart (target : nat) (pad : string) (s : string) : string :=
  let len := String.length s in
  if (target <=? len)%nat then s
  else if truthy pad
       then substring 0 (target - len) (repeat_string pad (target - len)) ++ s
       else s.

(** ** Presentation mapper *)

Inductive SafetyLevel : Type := LOW | MEDIUM | HIGH.

Definition SafetyLevel_eqb (a b : SafetyLevel) : bool :=
  match a, b with
  | LOW, LOW | MEDIUM, MEDIUM | HIGH, HIGH => true
  | _, _ => false
  end.

Definition getSafetyLevel (score : Q) : SafetyLevel :=
  if Qltb score 20 then LOW
  else if Qltb score 60 then MEDIUM
  else HIGH.

(** ** The response of the analysis service *)

Record ThreatDetail : Type := mkThreat {
  category : string;
  severity : string;
  confidence : Q;
  description : string
}.

(** The parsed body [data]; a field that is absent (or [null]) is [None].
    [threats] is [Some l] exactly when [Array.isArray(data.threats)]. *)
Record Data : Type := mkData {
  id : option string;
  is_safe : option bool;
  risk_score : option Q;
  threats : option (list ThreatDetail);
  threats_detected : option Q;
  safe_pct : option Q;
  created_at : option string;
  text : option string
}.

(** What [res.json()] gives: a rejection, [null], an object, or another
    JSON value (a number, a string, a boolean, an array).  A value of the
    last kind has none of the fields the page reads; [truthy] tells
    whether it is truthy (it is not for [0], [false] and the empty
    string). *)
Inductive Body : Type :=
| NotJson (message : string)
| JsonNull
| JsonObject (data : Data)
| JsonOther (truthy : bool).

(** An object with none of the fields the page reads: every read gives
    [undefined]. *)
Definition no_fields : Data :=
  mkData None None None None None None None None.

(** The fields that [data.risk_score], [data.id], ... read from a parsed
    body; [None] for [null], where they throw. *)
Definition fields_of (b : Body) : option Data :=
  match b with
  | JsonObject data => Some data
  | JsonOther _ => Some no_fields
  | NotJson _ | JsonNull => None
  end.

(** A parsed body as the page sees it once it is in [latestResult], which
    is read through [latestResult?.field] and tested for truthiness only:
    a falsy value reads like [null]. *)
Definition shown_of (b : Body) : option Data :=
  match b with
  | JsonObject data => Some data
  | JsonOther true => Some no_fields
  | JsonOther false | NotJson _ | JsonNull => None
  end.

Record Response : Type := mkResponse {
  status : nat;
  body : Body
}.

(** [res.ok]: the status is in the range 200-299. *)
Definition ok (res : Response) : bool :=
  ((200 <=? status res) && (status res <=? 299))%nat.

(** What [await fetch(...)] gives: a rejection or a response. *)
Inductive Outcome : Type :=
| NetworkError (message : string)
| Responded (res : Response).

(** [a ?? b] *)
Definition nullish {A : Type} (a : option A) (b : A) : A :=
  match a with Some v => v | None => b end.
Infix "??" := nullish (at level 45, right associativity).

(** ** Session state *)

Record HistoryItem : Type := mkItem {
  item_id : string;
  item_created_at : string;
  item_text : string;
  item_risk_score : Q;
  item_is_safe : bool
}.

(** The state hooks of [App]. *)
Record State : Type := mkState {
  input : string;
  isAnalyzing : bool;
  error : option string;
  totalAnalyses : nat;
  threatsDetected : Q;
  avgRiskScore : Q;
  latestResult : option Data;
  history : list HistoryItem
}.

Definition initial_state : State :=
  {| input := "";
     isAnalyzing := false;
     error := None;
     totalAnalyses := 0;
     threatsDetected := 0;
     avgRiskScore := 0;
     latestResult := None;
     history := [] |}.

(** The setters returned by [useState]. *)
Definition setInput (v : string) (s : State) : State :=
  mkState v (isAnalyzing s) (error s) (totalAnalyses s) (threatsDetected s)
          (avgRiskScore s) (latestResult s) (history s).
Definition setIsAnalyzing (v : bool) (s : State) : State :=
  mkState (input s) v (error s) (totalAnalyses s) (threatsDetected s)
          (avgRiskScore s) (latestResult s) (history s).
Definition setError (v : option string) (s : State) : State :=
  mkState (input s) (isAnalyzing s) v (totalAnalyses s) (threatsDetected s)
          (avgRiskScore s) (latestResult s) (history s).
Definition setTotalAnalyses (f : nat -> nat) (s : State) : State :=
  mkState (input s) (isAnalyzing s) (error s) (f (totalAnalyses s))
          (threatsDetected s) (avgRiskScore s) (latestResult s) (history s).
Definition setThreatsDetected (f : Q -> Q) (s : State) : State :=
  mkState (input s) (isAnalyzing s) (error s) (totalAnalyses s)
          (f (threatsDetected s)) (avgRiskScore s) (latestResult s) (history s).
Definition setAvgRiskScore (f : Q -> Q) (s : State) : State :=
  mkState (input s) (isAnalyzing s) (error s) (totalAnalyses s)
          (threatsDetected s) (f (avgRiskScore s)) (latestResult s) (history s).
Definition setLatestResult (v : option Data) (s : State) : State :=
  mkState (input s) (isAnalyzing s) (error s) (totalAnalyses s)
          (threatsDetected s) (avgRiskScore s) v (history s).
Definition setHistory (f : list HistoryItem -> list HistoryItem) (s : State) : State :=
  mkState (input s) (isAnalyzing s) (error s) (totalAnalyses s)
          (threatsDetected s) (avgRiskScore s) (latestResult s) (f (history s)).

(** [handleExampleClick] *)
Definition handleExampleClick (text : string) (s : State) : State :=
  setError None (setLatestResult None (setInput text s)).

(** ** [analyze]

    The asynchronous function is cut at its [await]: [analyze_begin] is the
    part that runs inside the click handler, up to and including the call
    of [fetch]; [analyze_resume] is the rest, run when the request
    settles.  No state is read or written between [await fetch] and
    [await res.json()], so both are one suspension point here. *)

(** The render-time constants the closure [analyze] has captured. *)
Record Closure : Type := mkClosure {
  c_input : string;
  c_totalAnalyses : nat
}.

(** The session: the hooks, the requests that are outstanding (each with
    the closure that waits for it) and the texts of all the requests
    issued so far. *)
Record World : Type := mkWorld {
  ui : State;
  pending : list Closure;
  outbox : list string
}.

Definition initial_world : World :=
  {| ui := initial_state; pending := []; outbox := [] |}.

Definition analyze_begin (w : World) : World :=
  let s := ui w in
  if blank (input s) then w
  else
    {| ui := setError None (setIsAnalyzing true s);
       pending := pending w ++ [mkClosure (input s) (totalAnalyses s)];
       outbox := outbox w ++ [input s] |}.

(** A small state-and-exception monad for the body of [try]: setter calls
    made before a [throw] stay in effect. *)
Definition M (A : Type) : Type := State -> State * (A + string).

Definition ret {A : Type} (a : A) : M A := fun s => (s, inl a).
Definition throw {A : Type} (message : string) : M A := fun s => (s, inr message).
Definition bind {A B : Type} (m : M A) (k : A -> M B) : M B :=
  fun s =>
    match m s with
    | (s', inl a) => k a s'
    | (s', inr e) => (s', inr e)
    end.
Definition call (f : State -> State) : M unit := fun s => (f s, inl tt).

Notation "x <- m ;; k" := (bind m (fun x => k))
  (at level 61, m at next level, right associativity).
Notation "m ;; k" := (bind m (fun _ => k))
  (at level 61, right associativity).

(** [await fetch(...)] *)
Definition await_fetch (o : Outcome) : M Response :=
  match o with
  | NetworkError message => throw message
  | Responded res => ret res
  end.

(** [await res.json()] *)
Definition await_json (res : Response) : M Body :=
  match body res with
  | NotJson message => throw message
  | parsed => ret parsed
  end.

(** Reading a property of [data] is a [TypeError] when [data] is [null]. *)
Definition null_property_message : string :=
  "Cannot read properties of null (reading 'risk_score')".

Definition deref (data : Body) : M Data :=
  match fields_of data with
  | Some d => ret d
  | None => throw null_property_message
  end.

(** [data.risk_score ?? 0] *)
Definition risk_of (data : Data) : Q := risk_score data ?? 0.

(** [Array.isArray(data.threats) ? data.threats.length
                                  : (data.threats_detected ?? 0)] *)
Definition threatsCount_of (data : Data) : Q :=
  match threats data with
  | Some l => Qnat (List.length l)
  | None => threats_detected data ?? 0
  end.

(** The updater given to [setAvgRiskScore]; [total] is the captured
    [totalAnalyses].  This is the expression evaluated exactly;
    [Double.avg_update] below is the same expression on doubles. *)
Definition avg_update (total : nat) (risk : Q) (prevAvg : Q) : Q :=
  if (total =? 0)%nat then risk
  else (prevAvg * Qnat total + risk) / (Qnat total + 1).

(** The fallback id: [`SA-${String(prev.length + 1).padStart(6, "0")}`] *)
Definition synthesized_id (prev : list HistoryItem) : string :=
  "SA-" ++ padStart 6 "0" (String_of_nat (List.length prev + 1)).

(** The object literal put at the head of the history. *)
Definition history_item (c : Closure) (now : string) (data : Data)
    (prev : list HistoryItem) : HistoryItem :=
  let risk := risk_of data in
  {| item_id := id data ?? synthesized_id prev;
     item_created_at := created_at data ?? now;
     item_text := text data ?? c_input c;
     item_risk_score := risk;
     item_is_safe := is_safe data ?? Qltb risk 20 |}.

Definition capacity : nat := 5.

(** The updater given to [setHistory]. *)
Definition history_update (c : Closure) (now : string) (data : Data)
    (prev : list HistoryItem) : list HistoryItem :=
  let next := history_item c now data prev :: prev in
  firstn capacity next.

(** The body of [try], after the request has settled with [o]; [now] is
    what [new Date().toISOString()] gives. *)
Definition analyze_try (c : Closure) (now : string) (o : Outcome) : M unit :=
  res <- await_fetch o ;;
  if negb (ok res)
  then throw ("API responded with " ++ String_of_nat (status res))
  else
    data <- await_json res ;;
    call (setLatestResult (shown_of data)) ;;
    d <- deref data ;;
    let risk := risk_of d in
    let threatsCount := threatsCount_of d in
    call (setTotalAnalyses (fun prev => prev + 1)%nat) ;;
    call (setThreatsDetected (fun prev => prev + threatsCount)) ;;
    call (setAvgRiskScore (avg_update (c_totalAnalyses c) risk)) ;;
    call (setHistory (history_update c now d)).

Definition default_message : string := "Something went wrong while analyzing.".

(** [try { ... } catch (err) { setError(err.message || ...) }
    finally { setIsAnalyzing(false) }] *)
Definition analyze_resume (c : Closure) (now : string) (o : Outcome)
    (s : State) : State :=
  let (s1, r) := analyze_try c now o s in
  let s2 := match r with
            | inl _ => s1
            | inr message => setError (Some (or_else message default_message)) s1
            end in
  setIsAnalyzing false s2.

(** ** The page as a transition system *)

(** The [disabled] attribute of the Analyze button. *)
Definition button_disabled (s : State) : bool :=
  isAnalyzing s || blank (input s).

Inductive Event : Type :=
| Typed (text : string)          (* onChange of the text area *)
| ExampleClick (text : string)   (* a quick-example chip *)
| ButtonClick                    (* the Analyze button *)
| Settled (i : nat) (now : string) (o : Outcome).
                                 (* the i-th outstanding request settles *)

Fixpoint remove_nth {A : Type} (i : nat) (l : list A) : list A :=
  match l, i with
  | [], _ => []
  | _ :: rest, O => rest
  | x :: rest, S j => x :: remove_nth j rest
  end.

Definition with_ui (f : State -> State) (w : World) : World :=
  {| ui := f (ui w); pending := pending w; outbox := outbox w |}.

Definition step (w : World) (e : Event) : World :=
  match e with
  | Typed text => with_ui (setInput text) w
  | ExampleClick text => with_ui (handleExampleClick text) w
  | ButtonClick => if button_disabled (ui w) then w else analyze_begin w
  | Settled i now o =>
      match nth_error (pending w) i with
      | None => w
      | Some c =>
          {| ui := analyze_resume c now o (ui w);
             pending := remove_nth i (pending w);
             outbox := outbox w |}
      end
  end.

Definition run (w : World) (trace : list Event) : World :=
  fold_left step trace w.

(** The result that an event folds into the statistics, if it does:
    the event is the settling of an outstanding request with a 2xx
    response whose body parses to a value other than [null]. *)
Definition folded_by (w : World) (e : Event) : option (Data * HistoryItem) :=
  match e with
  | Settled i now (Responded res) =>
      match nth_error (pending w) i, fields_of (body res) with
      | Some c, Some data =>
          if ok res
          then Some (data, history_item c now data (history (ui w)))
          else None
      | _, _ => None
      end
  | _ => None
  end.

(** The same, as a list of at most one result. *)
Definition folded_list (w : World) (e : Event) : list (Data * HistoryItem) :=
  match folded_by w e with
  | Some r => [r]
  | None => []
  end.

(** The results folded along a trace, oldest first. *)
Fixpoint results (w : World) (trace : list Event) : list (Data * HistoryItem) :=
  match trace with
  | [] => []
  | e :: rest =>
      match folded_by w e with
      | Some r => r :: results (step w e) rest
      | None => results (step w e) rest
      end
  end.

(** A failed submission, as the page detects it: the outcomes on which
    [analyze] throws.  The request is rejected, the status is not 2xx, the
    body is not JSON, or it is [null]. *)
Definition failed (o : Outcome) : bool :=
  match o with
  | NetworkError _ => true
  | Responded res =>
      negb (ok res) ||
      match fields_of (body res) with
      | Some _ => false
      | None => true
      end
  end.

(** The derived percentages of the page. *)
Definition safePct (s : State) : Q :=
  match latestResult s with
  | Some d =>
      match safe_pct d with
      | Some p => p
      | None => if is_safe d ?? false then 100 else 0
      end
  | None => 100
  end.

Definition unsafePct (s : State) : Q := 100 - safePct s.

(** The risk score shown and its level. *)
Definition riskScore (s : State) : Q :=
  match latestResult s with
  | Some d => risk_score d ?? 0
  | None => 0
  end.

Definition level (s : State) : SafetyLevel := getSafetyLevel (riskScore s).

(** ** The axios variant of the page (statistics read from the server) *)

Module Dashboard.

Record Stats : Type := mkStats {
  total_analyses : Q;
  threats_detected : Q;
  average_risk_score : Q;
  safe_percentage : Q;
  threat_breakdown : list (string * Q);
  uptime_hours : Q
}.

(** The initial value of the hook [stats]. *)
Definition initial_stats : Stats :=
  {| total_analyses := 0;
     threats_detected := 0;
     average_risk_score := 0;
     safe_percentage := 100;
     threat_breakdown := [];
     uptime_hours := 0 |}.

Record Badge : Type := mkBadge { color : string; label : string }.

Definition getRiskBadge (score : Q) : Badge :=
  if Qltb score 30 then mkBadge "bg-green-100 text-green-800" "LOW RISK"
  else if Qltb score 60 then mkBadge "bg-yellow-100 text-yellow-800" "MEDIUM RISK"
  else if Qltb score 80 then mkBadge "bg-orange-100 text-orange-800" "HIGH RISK"
  else mkBadge "bg-red-100 text-red-800" "CRITICAL RISK".

(** What the click handler does before it suspends. *)
Inductive Effect : Type :=
| Alert (message : string)
| Post (text : string).

Record Form : Type := mkForm { inputText : string; analyzing : bool }.

(** [analyzeText] up to its [await]. *)
Definition analyzeText_begin (f : Form) : Form * list Effect :=
  if blank (inputText f)
  then (f, [Alert "Please enter some text to analyze"])
  else (mkForm (inputText f) true, [Post (inputText f)]).

(** The [disabled] attribute of the Analyze button. *)
Definition button_disabled (f : Form) : bool :=
  analyzing f || blank (inputText f) || (10000 <? Z.of_nat (String.length (inputText f)))%Z.

Definition click (f : Form) : Form * list Effect :=
  if button_disabled f then (f, []) else analyzeText_begin f.

Definition getRiskColor (score : Q) : string :=
  if Qltb score 30 then "text-green-600"
  else if Qltb score 60 then "text-yellow-600"
  else if Qltb score 80 then "text-orange-600"
  else "text-red-600".

(** [category.replace(/_/g, ' ')] *)
Fixpoint replace_underscores (s : string) : string :=
  match s with
  | EmptyString => EmptyString
  | String c rest =>
      String (if Ascii.eqb c "_" then " "%char else c) (replace_underscores rest)
  end.

(** The upper case of a character, as UTF-16 code units, since it need
    not be one character below 256: the letters a-z and the accented
    letters 224-254 (but the division sign, 247) move down by 32; the
    micro sign (181) becomes the Greek capital mu (U+039C), the sharp s
    (223) the two letters SS, and the y with diaeresis (255) U+0178; every
    other character is its own upper case. *)
Definition upper_char (c : ascii) : list N :=
  let n := N_of_ascii c in
  if ((97 <=? n) && (n <=? 122))%N then [(n - 32)%N]
  else if (n =? 181)%N then [924%N]
  else if (n =? 223)%N then [83%N; 83%N]
  else if (n =? 255)%N then [376%N]
  else if ((224 <=? n) && (n <=? 254) && negb (n =? 247))%N then [(n - 32)%N]
  else [n].

(** [s.toUpperCase()], as a sequence of UTF-16 code units. *)
Fixpoint toUpperCase (s : string) : list N :=
  match s with
  | EmptyString => []
  | String c rest => (upper_char c ++ toUpperCase rest)%list
  end.

(** The rows of the bar chart: [Object.entries(stats.threat_breakdown)]
    is the list [threat_breakdown] itself; the name of a row is a sequence
    of code units. *)
Definition threatBreakdownData (stats : Stats) : list (list N * Q) :=
  map (fun entry => (toUpperCase (replace_underscores (fst entry)), snd entry))
      (filter (fun entry => Qltb 0 (snd entry)) (threat_breakdown stats)).

(** The two sectors of the pie chart, as (name, value). *)
Definition safetyPieData (stats : Stats) : list (string * Q) :=
  [("Safe", safe_percentage stats); ("Unsafe", 100 - safe_percentage stats)].

(** *** The page of this variant as a transition system *)

Record ThreatDetail : Type := mkThreatDetail {
  category : string;
  severity : string;
  confidence : Q;
  description : string;
  location : option string
}.

Record AnalysisResult : Type := mkAnalysisResult {
  id : string;
  text : string;
  is_safe : bool;
  risk_score : Q;
  threats : list ThreatDetail;
  timestamp : string;
  processing_time_ms : Q;
  recommendations : list string
}.

(** The part of an axios error that [analyzeText] reads:
    [error.response?.data?.detail]. *)
Record ErrorData : Type := mkErrorData { detail : option string }.
Record ErrorResponse : Type := mkErrorResponse { data : option ErrorData }.
Record AxiosError : Type := mkAxiosError { response : option ErrorResponse }.

(** [error.response?.data?.detail || 'Error analyzing text. ...'] *)
Definition alert_message (error : AxiosError) : string :=
  let detail_text :=
    match response error with
    | Some r => match data r with
                | Some d => detail d ?? ""
                | None => ""
                end
    | None => ""
    end in
  or_else detail_text "Error analyzing text. Make sure backend is running.".

(** The state hooks, the texts of the analysis requests that are
    outstanding, the alerts and posts so far, and the numbers of requests
    for the statistics and for the history that are outstanding. *)
Record Session : Type := mkSession {
  form : Form;
  result : option AnalysisResult;
  stats : Stats;
  history : list AnalysisResult;
  posts : list string;
  effects : list Effect;
  stats_requests : nat;
  history_requests : nat
}.

(** The state after the first render: the mount effect has called
    [fetchStats] and [fetchHistory].  (The health check and its status
    flag are left out.) *)
Definition initial_session : Session :=
  {| form := mkForm "" false;
     result := None;
     stats := initial_stats;
     history := [];
     posts := [];
     effects := [];
     stats_requests := 1;
     history_requests := 1 |}.

(** What [await axios.post(...)] gives. *)
Inductive PostOutcome : Type :=
| Fulfilled (data : AnalysisResult)
| Rejected (error : AxiosError).

Inductive Event : Type :=
| Typed (text : string)          (* onChange of the text area *)
| ExampleClick (text : string)   (* an example button *)
| ButtonClick                    (* the Analyze button *)
| RefreshClick                   (* the refresh button of the history *)
| PostSettled (i : nat) (o : PostOutcome)
| StatsSettled (o : option Stats)
| HistorySettled (o : option (option (list AnalysisResult))).

Definition setInputText (text : string) (s : Session) : Session :=
  mkSession (mkForm text (analyzing (form s))) (result s) (stats s) (history s)
            (posts s) (effects s) (stats_requests s)
            (history_requests s).

(** [analyzeText] after its [await]: the [try] body, [catch] and
    [finally]. *)
Definition analyzeText_resume (i : nat) (o : PostOutcome) (s : Session) : Session :=
  match o with
  | Fulfilled data =>
      mkSession (mkForm (inputText (form s)) false) (Some data) (stats s)
                (history s) (remove_nth i (posts s)) (effects s)
                (S (stats_requests s)) (S (history_requests s))
  | Rejected error =>
      mkSession (mkForm (inputText (form s)) false) (result s) (stats s)
                (history s) (remove_nth i (posts s))
                (effects s ++ [Alert (alert_message error)])
                (stats_requests s) (history_requests s)
  end.

Definition step (s : Session) (e : Event) : Session :=
  match e with
  | Typed text | ExampleClick text =>
      (* the text area and the example buttons are disabled while analyzing *)
      if analyzing (form s) then s else setInputText text s
  | ButtonClick =>
      let (f, out) := click (form s) in
      mkSession f (result s) (stats s) (history s)
                (posts s ++ flat_map (fun e => match e with
                                               | Post text => [text]
                                               | Alert _ => []
                                               end) out)
                (effects s ++ out) (stats_requests s) (history_requests s)
  | RefreshClick =>
      (* the button is rendered only when the history is not empty *)
      match history s with
      | [] => s
      | _ :: _ =>
          mkSession (form s) (result s) (stats s) (history s)
                    (posts s) (effects s) (stats_requests s)
                    (S (history_requests s))
      end
  | PostSettled i o =>
      match nth_error (posts s) i with
      | None => s
      | Some _ => analyzeText_resume i o s
      end
  | StatsSettled o =>
      match stats_requests s with
      | O => s
      | S n =>
          mkSession (form s) (result s)
                    (match o with Some data => data | None => stats s end)
                    (history s) (posts s) (effects s) n
                    (history_requests s)
      end
  | HistorySettled o =>
      match history_requests s with
      | O => s
      | S n =>
          mkSession (form s) (result s) (stats s)
                    (match o with
                     | Some analyses => analyses ?? []
                     | None => history s
                     end)
                    (posts s) (effects s) (stats_requests s) n
      end
  end.

Definition run (s : Session) (trace : list Event) : Session :=
  fold_left step trace s.

(** A text the button accepts. *)
Definition valid_text (text : string) : Prop :=
  blank text = false /\ (Z.of_nat (String.length text) <= 10000)%Z.

(** What holds of the session in every state the page can reach. *)
Record Inv (s : Session) : Prop := mkInv {
  inv_one_post : (List.length (posts s) <= 1)%nat;
  inv_busy : analyzing (form s) = negb (Nat.eqb (List.length (posts s)) 0);
  inv_text : forall t, In t (posts s) -> t = inputText (form s);
  inv_posts : forall t, In (Post t) (effects s) -> valid_text t
}.

End Dashboard.

(** ** The three-tier variant of the page *)

Module Tiered.

(** The updater given to [setHistory]: [[data, ...prev].slice(0, 5)]. *)
Definition history_update {A : Type} (data : A) (prev : list A) : list A :=
  firstn 5 (data :: prev).

Record TierBadge : Type := mkTierBadge { label : string; class : string }.

Definition getTierBadge (tier : string) : TierBadge :=
  if String.eqb tier "proctoring_ai"
  then mkTierBadge "Proctoring AI" "tier-proctoring"
  else if String.eqb tier "superior_safe_ai"
  then mkTierBadge "Superior Safe AI" "tier-superior"
  else if String.eqb tier "human_oversight"
  then mkTierBadge "Human Oversight" "tier-human"
  else mkTierBadge tier "tier-base".

(** The text shown for a history entry:
    [t.length > 80 ? t.slice(0, 80) + "..." : t]. *)
Definition history_text (original_text : string) : string :=
  if (80 <? String.length original_text)%nat
  then substring 0 80 original_text ++ "..."
  else original_text.

(** The history after the results [ds] have arrived, oldest first. *)
Definition history_after {A : Type} (ds : list A) (start : list A) : list A :=
  fold_left (fun prev data => history_update data prev) ds start.

End Tiered.

(** ** The running average on doubles *)

Module Double.

(** The updater given to [setAvgRiskScore] on the numbers of the page,
    IEEE 754 binary64; [total] is the captured [totalAnalyses]:
    [totalAnalyses === 0 ? risk
       : (prevAvg * totalAnalyses + risk) / (totalAnalyses + 1)]. *)
Definition avg_update (total risk prevAvg : float) : float :=
  if PrimFloat.eqb total 0 then risk
  else ((prevAvg * total + risk) / (total + 1))%float.



(** The rational number that a finite double is. *)
Definition value (x : float) : option Q :=
  match Prim2SF x with
  | S754_zero _ => Some 0
  | S754_finite s m e => Some (inject_Z (cond_Zopp s (Zpos m)) * Qpower 2 e)
  | S754_infinity _ | S754_nan => None
  end.


(** The operation [op] on [x] and [y] gives a finite double that is the
    exact result [qop]: it neither rounds nor overflows. *)
Definition exact (op : float -> float -> float) (qop : Q -> Q -> Q)
    (x y : float) : bool :=
  match value x, value y, value (op x y) with
  | Some a, Some b, Some c => Qeq_bool c (qop a b)
  | _, _, _ => false
  end.




End Double.

(** ** Notions used in the statements *)

Definition Qsum (l : list Q) : Q := fold_right Qplus 0 l.


(** The risk scores of a list of folded results. *)
Definition risks (l : list (Data * HistoryItem)) : list Q :=
  map (fun r => risk_of (fst r)) l.

(** The verdict of a result, as recorded in its history entry. *)
Definition verdict (r : Data * HistoryItem) : bool := item_is_safe (snd r).

Definition count_safe (l : list (Data * HistoryItem)) : nat :=
  List.length (filter verdict l).

Definition count_unsafe (l : list (Data * HistoryItem)) : nat :=
  List.length (filter (fun r => negb (verdict r)) l).

(** The history entries by verdict. *)
Definition safe_entries (s : State) : nat :=
  List.length (filter item_is_safe (history s)).

Definition unsafe_entries (s : State) : nat :=
  List.length (filter (fun i => negb (item_is_safe i)) (history s)).

(** One submission that succeeds: the text is typed, the button is clicked
    and the request settles with a 200 response carrying [data]. *)
Definition submission (text now : string) (data : Data) : list Event :=
  [Typed text; ButtonClick; Settled 0 now (Responded (mkResponse 200 (JsonObject data)))].

(** A response that carries only a risk score and, maybe, a verdict. *)
Definition bare (risk : Q) (safe : option bool) : Data :=
  mkData None safe (Some risk) None None None None None.

(** Six successful submissions with the same risk score and no id: the
    first with the verdict [first], the five others unsafe. *)
Definition six_results (first : bool) : list Event :=
  (submission "text" "now" (bare 10 (Some first)) ++
   submission "text" "now" (bare 10 (Some false)) ++
   submission "text" "now" (bare 10 (Some false)) ++
   submission "text" "now" (bare 10 (Some false)) ++
   submission "text" "now" (bare 10 (Some false)) ++
   submission "text" "now" (bare 10 (Some false)))%list.

(** Seven successful submissions whose responses carry no id. *)
Definition seven_without_id : list Event :=
  (submission "one" "now" (bare 10 None) ++
   submission "two" "now" (bare 20 None) ++
   submission "three" "now" (bare 30 None) ++
   submission "four" "now" (bare 40 None) ++
   submission "five" "now" (bare 50 None) ++
   submission "six" "now" (bare 60 None) ++
   submission "seven" "now" (bare 70 None))%list.

(** What holds of the session and of the results folded so far (oldest
    first) in every state the page can reach. *)
Record Inv (w : World) (log : list (Data * HistoryItem)) : Prop := mkInv {
  inv_one_pending : (List.length (pending w) <= 1)%nat;
  inv_busy : isAnalyzing (ui w) = negb (Nat.eqb (List.length (pending w)) 0);
  inv_captured : forall c, In c (pending w) ->
                   c_totalAnalyses c = totalAnalyses (ui w);
  inv_total : totalAnalyses (ui w) = List.length log;
  inv_requests : (totalAnalyses (ui w) + List.length (pending w)
                  <= List.length (outbox w))%nat;
  inv_avg : avgRiskScore (ui w) * Qnat (List.length log) == Qsum (risks log);
  inv_zero : totalAnalyses (ui w) = 0%nat ->
             avgRiskScore (ui w) = 0 /\ threatsDetected (ui w) = 0 /\
             latestResult (ui w) = None;
  inv_history : history (ui w) = firstn capacity (rev (map snd log))
}.

(** A body that is [null], in a 2xx response: the one failure that
    resets [latestResult]. *)
Definition null_body (o : Outcome) : bool :=
  match o with
  | Responded res =>
      ok res && match body res with JsonNull => true | _ => false end
  | NetworkError _ => false
  end.

Definition present {A : Type} (a : option A) : bool :=
  match a with Some _ => true | None => false end.

(** A body that normalizes in the sense of the specification (section 6):
    a JSON object that contains a risk score and a threat list (the
    verdict can be derived from the risk score). *)
Definition spec_normalizes (b : Body) : bool :=
  match b with
  | JsonObject d => present (risk_score d) && present (threats d)
  | NotJson _ | JsonNull | JsonOther _ => false
  end.

(** A failed submission in the sense of the specification (sections 6
    and 7): the transport fails, the status is not 2xx, or the body does
    not parse or does not normalize. *)
Definition spec_failed (o : Outcome) : bool :=
  match o with
  | NetworkError _ => true
  | Responded res => negb (ok res) || negb (spec_normalizes (body res))
  end.

(** The threat counts of a list of folded results. *)
Definition threat_counts (l : list (Data * HistoryItem)) : list Q :=
  map (fun r => threatsCount_of (fst r)) l.

(** The levels in increasing order. *)
Definition level_rank (l : SafetyLevel) : nat :=
  match l with LOW => 0 | MEDIUM => 1 | HIGH => 2 end.

(** The fallback id of the result folded after [k] others. *)
Definition fallback_id (k : nat) : string :=
  "SA-" ++ padStart 6 "0" (String_of_nat (Nat.min k capacity + 1)).

(** What holds, beside [Inv], of the requests, the messages and the ids
    in every state the page can reach. *)
Record Inv_io (w : World) (log : list (Data * HistoryItem)) : Prop := mkInv_io {
  io_threats : threatsDetected (ui w) == Qsum (threat_counts log);
  io_outbox : Forall (fun t => blank t = false) (outbox w);
  io_error : pending w <> [] -> error (ui w) = None;
  io_text : forall c, In c (pending w) -> c_input c = last (outbox w) "";
  io_ids : forall k r, nth_error log k = Some r ->
             item_id (snd r) = id (fst r) ?? fallback_id k;
  io_latest : forall d, latestResult (ui w) = Some d ->
                exists item, hd_error (rev log) = Some (d, item)
}.

(** * Properties *)

(** ** Comparison and strings *)

Lemma Qltb_lt (x y : Q) : Qltb x y = true <-> x < y.
Proof. unfold Qltb, Qlt. apply Z.ltb_lt. Qed.

Lemma Qltb_ge (x y : Q) : Qltb x y = false <-> y <= x.
Proof. unfold Qltb, Qle. rewrite Z.ltb_ge. reflexivity. Qed.

(** A text is blank exactly when trimming its start leaves nothing: what
    [trim_start] keeps begins with a character that is not white space,
    and [trim_end] never drops such a character. *)
Lemma blank_trim_start (s : string) :
  blank s = true <-> trim_start s = EmptyString.
Proof.
  unfold blank, trim. split.
  - induction s as [|c rest IH]; cbn; [reflexivity|].
    destruct (is_white_space c) eqn:W; [exact IH|].
    cbn. rewrite W. destruct (trim_end rest); discriminate.
  - intros ->. reflexivity.
Qed.

(** ** The continuation of [analyze] *)

Lemma analyze_resume_folded (c : Closure) (now : string) (res : Response)
    (d : Data) (s : State) :
  ok res = true -> fields_of (body res) = Some d ->
  analyze_resume c now (Responded res) s =
  mkState (input s) false (error s) (totalAnalyses s + 1)
          (threatsDetected s + threatsCount_of d)
          (avg_update (c_totalAnalyses c) (risk_of d) (avgRiskScore s))
          (shown_of (body res)) (history_update c now d (history s)).
Proof.
  intros Hok Hfields.
  unfold analyze_resume, analyze_try, bind, await_fetch, await_json, deref,
    ret, call.
  rewrite Hok. cbn [negb].
  destruct (body res) as [m | | d0 | t]; try discriminate;
    cbn in Hfields; injection Hfields as <-; reflexivity.
Qed.

Lemma analyze_resume_ok (c : Closure) (now : string) (res : Response)
    (d : Data) (s : State) :
  ok res = true -> body res = JsonObject d ->
  analyze_resume c now (Responded res) s =
  mkState (input s) false (error s) (totalAnalyses s + 1)
          (threatsDetected s + threatsCount_of d)
          (avg_update (c_totalAnalyses c) (risk_of d) (avgRiskScore s))
          (Some d) (history_update c now d (history s)).
Proof.
  intros Hok Hbody.
  rewrite (analyze_resume_folded c now res d s Hok)
    by (rewrite Hbody; reflexivity).
  rewrite Hbody. reflexivity.
Qed.

Lemma shown_of_fields (b : Body) (d : Data) :
  shown_of b = Some d -> fields_of b = Some d.
Proof.
  destruct b as [m | | d0 | [|]]; cbn; intros H; try discriminate; exact H.
Qed.

Lemma analyze_resume_failed (c : Closure) (now : string) (o : Outcome)
    (s : State) :
  failed o = true ->
  exists message latest,
    analyze_resume c now o s =
    mkState (input s) false (Some message) (totalAnalyses s)
            (threatsDetected s) (avgRiskScore s) latest (history s) /\
    (latest = latestResult s \/ latest = None).
Proof.
  intros F.
  unfold analyze_resume, analyze_try, bind, await_fetch, await_json, ret, call.
  destruct o as [m | res]; cbn.
  - eexists _, _. split; [reflexivity | now left].
  - cbn in F. destruct (ok res) eqn:Hok; cbn.
    + destruct (body res) eqn:Hb; cbn in *; try discriminate.
      * eexists _, _. split; [reflexivity | now left].
      * eexists _, _. split; [reflexivity | now right].
    + eexists _, _. split; [reflexivity | now left].
Qed.

Lemma failed_false (o : Outcome) :
  failed o = false ->
  exists res d,
    o = Responded res /\ ok res = true /\ fields_of (body res) = Some d.
Proof.
  destruct o as [m | res]; cbn; [discriminate|].
  destruct (ok res) eqn:Hok; cbn; [|discriminate].
  destruct (fields_of (body res)) as [d|] eqn:Hb; try discriminate.
  intros _. exists res, d. auto.
Qed.

(** ** Sums and means *)

Lemma Qsum_app (l : list Q) (x : Q) : Qsum (l ++ [x]) == Qsum l + x.
Proof.
  unfold Qsum. induction l as [|y l IH]; cbn [app fold_right].
  - ring.
  - rewrite IH. ring.
Qed.

Lemma Qnat_succ (n : nat) : Qnat (n + 1) == Qnat n + 1.
Proof.
  unfold Qnat. rewrite Nat2Z.inj_add, inject_Z_plus. reflexivity.
Qed.

Lemma Qnat_nonneg (n : nat) : 0 <= Qnat n.
Proof.
  unfold Qnat. change 0 with (inject_Z 0). rewrite <- Zle_Qle. lia.
Qed.

(** The divisor of the running average is never zero. *)
Lemma divisor_nonzero (n : nat) : ~ Qnat n + 1 == 0.
Proof.
  intros H. pose proof (Qnat_nonneg n) as Hn.
  assert (0 < Qnat n + 1) as Hpos.
  { apply Qlt_le_trans with (0 + 1); [reflexivity|].
    apply Qplus_le_l. exact Hn. }
  rewrite H in Hpos. discriminate.
Qed.

(** One step of the running average keeps [avg * n = sum]. *)
Lemma avg_update_sum (n : nat) (risk avg sum : Q) :
  avg * Qnat n == sum ->
  avg_update n risk avg * Qnat (n + 1) == sum + risk.
Proof.
  intros H. unfold avg_update. rewrite Qnat_succ.
  destruct (Nat.eqb_spec n 0) as [-> | Hn].
  - rewrite <- H. unfold Qnat. cbn. ring.
  - rewrite <- H. field. apply divisor_nonzero.
Qed.


(** ** The bounded history *)

Lemma firstn_cons_firstn {A : Type} (n : nat) (x : A) (l : list A) :
  firstn (S n) (x :: firstn (S n) l) = firstn (S n) (x :: l).
Proof.
  rewrite !firstn_cons. f_equal. rewrite firstn_firstn.
  f_equal. lia.
Qed.

Lemma remove_nth_single {A : Type} (i : nat) (l : list A) (c : A) :
  (List.length l <= 1)%nat -> nth_error l i = Some c ->
  l = [c] /\ i = 0%nat /\ remove_nth i l = [].
Proof.
  destruct l as [|x [|y l]]; cbn; intros Hlen Hnth.
  - destruct i; discriminate.
  - destruct i as [|[|i]]; cbn in Hnth; try discriminate.
    injection Hnth as ->. auto.
  - lia.
Qed.

(** ** The invariant *)

Lemma Inv_initial : Inv initial_world [].
Proof.
  constructor; cbn; auto; try reflexivity; try lia; tauto.
Qed.

Lemma Inv_with_ui (f : State -> State) (w : World) log :
  Inv w log ->
  isAnalyzing (f (ui w)) = isAnalyzing (ui w) ->
  totalAnalyses (f (ui w)) = totalAnalyses (ui w) ->
  threatsDetected (f (ui w)) = threatsDetected (ui w) ->
  avgRiskScore (f (ui w)) = avgRiskScore (ui w) ->
  history (f (ui w)) = history (ui w) ->
  (latestResult (f (ui w)) = latestResult (ui w) \/
   latestResult (f (ui w)) = None) ->
  Inv (with_ui f w) log.
Proof.
  intros [H1 H2 H3 H4 H5 H6 H7 H8] Ea Et Eth Eavg Eh El.
  constructor; cbn; rewrite ?Ea, ?Et, ?Eth, ?Eavg, ?Eh; auto.
  intros Hz. destruct (H7 Hz) as (Ha & Hb & Hc).
  repeat split; auto. destruct El as [-> | ->]; auto.
Qed.

Lemma Inv_step (w : World) (e : Event) log :
  Inv w log -> Inv (step w e) (log ++ folded_list w e).
Proof.
  intros HI. destruct e as [text | text | | i now o].
  - (* Typed *)
    unfold folded_list; cbn. rewrite app_nil_r.
    apply Inv_with_ui; auto.
  - (* ExampleClick *)
    unfold folded_list; cbn. rewrite app_nil_r.
    apply Inv_with_ui; auto.
  - (* ButtonClick *)
    unfold folded_list; cbn. rewrite app_nil_r.
    unfold button_disabled.
    destruct (isAnalyzing (ui w)) eqn:Hbusy; cbn; [exact HI|].
    unfold analyze_begin.
    destruct (blank (input (ui w))) eqn:Hblank; cbn; [exact HI|].
    destruct HI as [H1 H2 H3 H4 H5 H6 H7 H8].
    rewrite Hbusy in H2.
    destruct (pending w) as [|c0 rest] eqn:Hp; [|discriminate].
    constructor; cbn; auto.
    + intros c [<- | []]. reflexivity.
    + rewrite length_app. cbn in *. lia.
  - (* Settled *)
    unfold folded_list. cbn.
    destruct (nth_error (pending w) i) as [c|] eqn:Hnth.
    2:{ destruct o; cbn; rewrite ?Hnth, ?app_nil_r; exact HI. }
    destruct HI as [H1 H2 H3 H4 H5 H6 H7 H8].
    destruct (remove_nth_single i (pending w) c H1 Hnth) as (Hp & -> & Hr).
    rewrite Hr. rewrite Hp in *. cbn in H5.
    assert (Hc : c_totalAnalyses c = totalAnalyses (ui w))
      by (apply H3; now left).
    destruct (failed o) eqn:F.
    + (* the submission fails *)
      destruct (analyze_resume_failed c now o (ui w) F)
        as (message & latest & -> & Hl).
      assert (Hnone : match o with
                      | NetworkError _ => None
                      | Responded res =>
                          match fields_of (body res) with
                          | Some data =>
                              if ok res
                              then Some (data, history_item c now data (history (ui w)))
                              else None
                          | None => None
                          end
                      end = None).
      { destruct o as [m | res]; cbn in *; auto.
        destruct (fields_of (body res)); auto.
        destruct (ok res); auto; discriminate. }
      rewrite Hnone, app_nil_r.
      constructor; cbn; auto; try lia; try tauto.
      intros Hz. destruct (H7 Hz) as (Ha & Hb & Hc').
      repeat split; auto. destruct Hl as [-> | ->]; auto.
    + (* the result is folded *)
      destruct (failed_false o F) as (res & d & -> & Hok & Hbody).
      rewrite (analyze_resume_folded c now res d (ui w) Hok Hbody).
      rewrite Hbody, Hok.
      constructor;
        cbn [ui pending outbox isAnalyzing totalAnalyses threatsDetected
             avgRiskScore latestResult history List.length Nat.eqb negb In].
      * lia.
      * reflexivity.
      * tauto.
      * rewrite length_app. cbn [List.length]. lia.
      * lia.
      * rewrite length_app. cbn [List.length].
        unfold risks. rewrite map_app. cbn [map fst].
        fold (risks log). rewrite Qsum_app.
        rewrite Hc, H4. apply avg_update_sum. exact H6.
      * intros Hz. lia.
      * rewrite map_app, rev_app_distr. cbn [map rev app snd].
        unfold history_update. rewrite H8. unfold capacity.
        apply firstn_cons_firstn.
Qed.

Lemma results_cons (w : World) (e : Event) (trace : list Event) :
  results w (e :: trace) = (folded_list w e ++ results (step w e) trace)%list.
Proof.
  unfold folded_list. cbn. destruct (folded_by w e); reflexivity.
Qed.

Lemma Inv_run (trace : list Event) : forall (w : World) log,
  Inv w log -> Inv (run w trace) (log ++ results w trace).
Proof.
  induction trace as [|e trace IH]; intros w log HI.
  - cbn. rewrite app_nil_r. exact HI.
  - rewrite results_cons, app_assoc. cbn [run fold_left].
    apply IH, Inv_step, HI.
Qed.

(** Every state the page reaches from its initial state satisfies the
    invariant, for the results folded on the way. *)
Lemma Inv_reachable (trace : list Event) :
  Inv (run initial_world trace) (results initial_world trace).
Proof.
  apply (Inv_run trace initial_world []), Inv_initial.
Qed.

(** ** Running average *)




(** ** The running average on doubles *)













(** ** Failed submissions *)

(** C2, as stated, fails: a 2xx response whose body does not normalize
    (here the JSON value [0], or the empty object) is not treated as a
    failure by the page but folded, so the total, the history and the
    running average change. *)
Lemma unusable_body_is_folded :
  ~ (forall (w : World) (i : nat) (now : string) (o : Outcome) (c : Closure),
        nth_error (pending w) i = Some c ->
        spec_failed o = true ->
        let s' := ui (step w (Settled i now o)) in
        totalAnalyses s' = totalAnalyses (ui w) /\
        history s' = history (ui w) /\
        avgRiskScore s' = avgRiskScore (ui w)) /\
  (let w := run initial_world (submission "first" "now" (bare 50 None) ++
                               [Typed "second"; ButtonClick]) in
   forall b, b = JsonOther false \/ b = JsonObject no_fields ->
     let s' := ui (step w (Settled 0 "now" (Responded (mkResponse 200 b)))) in
     spec_failed (Responded (mkResponse 200 b)) = true /\
     totalAnalyses (ui w) = 1%nat /\ totalAnalyses s' = 2%nat /\
     List.length (history (ui w)) = 1%nat /\ List.length (history s') = 2%nat /\
     avgRiskScore (ui w) = 50 /\ avgRiskScore s' == 25).
Proof.
  split.
  - intros H.
    destruct (H (run initial_world [Typed "hello"; ButtonClick]) 0%nat "now"
                (Responded (mkResponse 200 (JsonOther false)))
                (mkClosure "hello" 0) eq_refl eq_refl) as (Ht & _).
    vm_compute in Ht. discriminate.
  - intros w b [-> | ->]; vm_compute; repeat split; reflexivity.
Qed.

(** C2, amended.  When an outstanding request settles with an outcome on
    which [analyze] throws (the request is rejected, the status is not
    2xx, the body is not JSON, or the body is [null]), [totalAnalyses], the
    history, the running average and the threat count keep their values,
    whatever the state, and a message is set; [latestResult] keeps its
    value too, except that a [null] body resets it to [null].  There is no
    normalization: every other outcome, a 2xx body that parses to any
    value but [null], is folded, with the four statistics updated
    together and the body shown as the latest result.  In both cases the
    busy flag is released and the text area keeps its text. *)
Theorem detected_failure_keeps_aggregates :
  forall (w : World) (i : nat) (now : string) (o : Outcome) (c : Closure),
    nth_error (pending w) i = Some c ->
    let s := ui w in
    let s' := ui (step w (Settled i now o)) in
    isAnalyzing s' = false /\
    input s' = input s /\
    if failed o
    then totalAnalyses s' = totalAnalyses s /\
         history s' = history s /\
         avgRiskScore s' = avgRiskScore s /\
         threatsDetected s' = threatsDetected s /\
         (exists message, error s' = Some message) /\
         latestResult s' = (if null_body o then None else latestResult s)
    else exists res d,
         o = Responded res /\ ok res = true /\
         fields_of (body res) = Some d /\
         totalAnalyses s' = (totalAnalyses s + 1)%nat /\
         history s' = history_update c now d (history s) /\
         avgRiskScore s' =
           avg_update (c_totalAnalyses c) (risk_of d) (avgRiskScore s) /\
         threatsDetected s' = threatsDetected s + threatsCount_of d /\
         error s' = error s /\
         latestResult s' = shown_of (body res).
Proof.
  intros w i now o c Hnth s s'. unfold s', s. cbn [step]. rewrite Hnth. cbn [ui].
  destruct (failed o) eqn:F.
  - unfold analyze_resume, analyze_try, bind, await_fetch, await_json, deref,
      ret, call.
    destruct o as [m | res]; cbn; [repeat split; eauto|].
    cbn in F. destruct (ok res) eqn:Hok; cbn; [|repeat split; eauto].
    destruct (body res) as [m | | d | t]; cbn in *; try discriminate;
      repeat split; eauto.
  - destruct (failed_false o F) as (res & d & -> & Hok & Hfields).
    rewrite (analyze_resume_folded c now res d (ui w) Hok Hfields).
    cbn. split; [reflexivity|]. split; [reflexivity|].
    exists res, d. repeat split; assumption.
Qed.

Lemma detected_failure_keeps_aggregates_witness :
  let w := run initial_world (submission "first" "now" (bare 50 None) ++
                              [Typed "second"; ButtonClick]) in
  let s := ui w in
  let s' := ui (step w (Settled 0 "now" (Responded (mkResponse 200 JsonNull)))) in
  totalAnalyses s' = totalAnalyses s /\
  history s' = history s /\
  avgRiskScore s' = avgRiskScore s /\
  latestResult s = Some (bare 50 None) /\
  latestResult s' = None.
Proof.
  intros w s s'.
  destruct (detected_failure_keeps_aggregates w 0 "now"
              (Responded (mkResponse 200 JsonNull))
              (mkClosure "second" 1) eq_refl)
    as (_ & _ & H1 & H2 & H3 & _ & _ & H4).
  split; [exact H1|]. split; [exact H2|]. split; [exact H3|].
  split; [reflexivity | exact H4].
Defined.

(** ** Bounded history *)

Lemma removelast_firstn_length {A : Type} (l : list A) (n : nat) :
  List.length l = S n -> firstn n l = removelast l.
Proof.
  intros H. rewrite removelast_firstn_len, H. reflexivity.
Qed.

(** C3.  After k successful submissions along any run, the history has
    [min k capacity] entries with [capacity = 5], and it lists the entries
    of the most recent results, newest first.  Pushing onto a full history
    drops its last (oldest) entry. *)
Theorem history_is_bounded_newest_first :
  forall trace : list Event,
    let w := run initial_world trace in
    let rs := results initial_world trace in
    capacity = 5%nat /\
    List.length (history (ui w)) = Nat.min (List.length rs) capacity /\
    history (ui w) = firstn capacity (rev (map snd rs)) /\
    (forall c now d,
        List.length (history (ui w)) = capacity ->
        history_update c now d (history (ui w)) =
        history_item c now d (history (ui w)) :: removelast (history (ui w))).
Proof.
  intros trace w rs.
  destruct (Inv_reachable trace) as [_ _ _ _ _ _ _ H8].
  fold w in H8. fold rs in H8.
  split; [reflexivity|]. split; [|split].
  - rewrite H8, length_firstn, length_rev, length_map. lia.
  - exact H8.
  - intros c now d Hlen. unfold history_update.
    unfold capacity in *. rewrite firstn_cons. f_equal.
    apply removelast_firstn_length. exact Hlen.
Qed.

Lemma history_is_bounded_newest_first_witness :
  let w := run initial_world seven_without_id in
  let c := mkClosure "eight" 7 in
  history_update c "now" (bare 80 None) (history (ui w)) =
  history_item c "now" (bare 80 None) (history (ui w)) ::
  removelast (history (ui w)).
Proof.
  intros w c.
  destruct (history_is_bounded_newest_first seven_without_id)
    as (_ & _ & _ & H).
  apply H. reflexivity.
Defined.

(** The same bound for the updater of the three-tier variant. *)
Lemma Tiered_history_length {A : Type} (data : A) (prev : list A) :
  List.length (Tiered.history_update data prev) =
  Nat.min 5 (S (List.length prev)).
Proof. unfold Tiered.history_update. rewrite length_firstn. reflexivity. Qed.

(** ** Verdict counters *)

Lemma filter_partition_length {A : Type} (p : A -> bool) (l : list A) :
  (List.length (filter p l) + List.length (filter (fun x => negb (p x)) l)
   = List.length l)%nat.
Proof.
  induction l as [|x l IH]; cbn; [reflexivity|].
  destruct (p x); cbn; lia.
Qed.

(** The state keeps no count of the safe results: two sessions that
    differ in the verdict of a result that was evicted from the history
    end in the same state. *)
Lemma six_results_same_state :
  run initial_world (six_results true) = run initial_world (six_results false) /\
  count_safe (results initial_world (six_results true)) = 1%nat /\
  count_safe (results initial_world (six_results false)) = 0%nat.
Proof. repeat split; vm_compute; reflexivity. Qed.

(** C4, as stated, fails: no pair of counters read from the session can
    give the numbers of safe and of unsafe results of every run. *)
Lemma no_verdict_counters_in_session :
  ~ exists safeCount unsafeCount : World -> nat,
      forall trace : list Event,
        let w := run initial_world trace in
        let rs := results initial_world trace in
        safeCount w = count_safe rs /\
        unsafeCount w = count_unsafe rs /\
        (safeCount w + unsafeCount w = totalAnalyses (ui w))%nat.
Proof.
  intros (safeCount & unsafeCount & H).
  destruct six_results_same_state as (E & H1 & H0).
  destruct (H (six_results true)) as (A1 & _).
  destruct (H (six_results false)) as (A0 & _).
  cbv zeta in A1, A0. rewrite E, A0, H0 in A1. rewrite H1 in A1. discriminate.
Qed.

(** C4, amended.  The verdicts are kept only on the history entries: along
    every run the safe and the unsafe entries of the history add up to
    [min totalAnalyses capacity], hence to [totalAnalyses] as long as no
    entry was evicted; the two percentages shown add up to 100; and the
    safe and unsafe results folded so far add up to [totalAnalyses]. *)
Theorem verdict_partition_of_history :
  forall trace : list Event,
    let w := run initial_world trace in
    let rs := results initial_world trace in
    (safe_entries (ui w) + unsafe_entries (ui w)
     = Nat.min (totalAnalyses (ui w)) capacity)%nat /\
    (count_safe rs + count_unsafe rs = totalAnalyses (ui w))%nat /\
    safePct (ui w) + unsafePct (ui w) == 100.
Proof.
  intros trace w rs.
  destruct (Inv_reachable trace) as [_ _ _ H4 _ _ _ H8].
  fold w in H4, H8. fold rs in H4, H8.
  split; [|split].
  - unfold safe_entries, unsafe_entries.
    rewrite filter_partition_length, H8, length_firstn, length_rev, length_map, H4.
    lia.
  - unfold count_safe, count_unsafe.
    rewrite filter_partition_length. symmetry. exact H4.
  - unfold unsafePct. ring.
Qed.

(** ** Risk levels *)

(** C5.  [getSafetyLevel] has the three values LOW, MEDIUM and HIGH, with
    LOW exactly below 20, MEDIUM exactly from 20 up to but not including
    60, and HIGH exactly from 60 on; in particular 19.9 is LOW, 20 is
    MEDIUM, 59.9 is MEDIUM and 60 is HIGH. *)
Theorem getSafetyLevel_thresholds :
  (forall score : Q,
      (getSafetyLevel score = LOW \/ getSafetyLevel score = MEDIUM \/
       getSafetyLevel score = HIGH) /\
      (getSafetyLevel score = LOW <-> score < 20) /\
      (getSafetyLevel score = MEDIUM <-> 20 <= score /\ score < 60) /\
      (getSafetyLevel score = HIGH <-> 60 <= score)) /\
  getSafetyLevel (199 # 10) = LOW /\
  getSafetyLevel 20 = MEDIUM /\
  getSafetyLevel (599 # 10) = MEDIUM /\
  getSafetyLevel 60 = HIGH.
Proof.
  split; [|repeat split; reflexivity].
  intros score. unfold getSafetyLevel.
  destruct (Qltb score 20) eqn:E1; [|destruct (Qltb score 60) eqn:E2].
  - apply Qltb_lt in E1.
    repeat split; auto; try discriminate; intros; lra.
  - apply Qltb_ge in E1. apply Qltb_lt in E2.
    repeat split; auto; try discriminate; intros; lra.
  - apply Qltb_ge in E1. apply Qltb_ge in E2.
    repeat split; auto; try discriminate; intros; lra.
Qed.

(** The badge of the axios variant is a different mapper: four labels,
    with its lowest threshold at 30. *)
Remark getRiskBadge_is_four_tiered :
  Dashboard.label (Dashboard.getRiskBadge 25) = "LOW RISK" /\
  Dashboard.label (Dashboard.getRiskBadge 30) = "MEDIUM RISK" /\
  Dashboard.label (Dashboard.getRiskBadge 60) = "HIGH RISK" /\
  Dashboard.label (Dashboard.getRiskBadge 80) = "CRITICAL RISK".
Proof. repeat split; reflexivity. Qed.

(** ** Blank input *)

Lemma blank_of_trim (text : string) : trim text = "" -> blank text = true.
Proof. unfold blank. intros ->. reflexivity. Qed.

(** C6.  When the text is empty after trimming, [analyze] returns at once:
    the session is left as it was (no request is added to the outbox or to
    the outstanding ones, the counters, the history and the error message
    keep their values), and so does a click on the button. *)
Theorem blank_input_is_ignored :
  forall (w : World) (text : string),
    trim text = "" ->
    let w1 := step w (Typed text) in
    analyze_begin w1 = w1 /\
    step w1 ButtonClick = w1 /\
    outbox (analyze_begin w1) = outbox w /\
    pending (analyze_begin w1) = pending w /\
    totalAnalyses (ui (analyze_begin w1)) = totalAnalyses (ui w) /\
    history (ui (analyze_begin w1)) = history (ui w) /\
    error (ui (analyze_begin w1)) = error (ui w).
Proof.
  intros w text Htrim w1.
  assert (Hb : blank (input (ui w1)) = true) by (apply blank_of_trim, Htrim).
  assert (E : analyze_begin w1 = w1) by (unfold analyze_begin; now rewrite Hb).
  split; [exact E|]. split.
  - cbn [step]. unfold button_disabled. rewrite Hb, orb_true_r. reflexivity.
  - rewrite E. repeat split; reflexivity.
Qed.

Lemma blank_input_is_ignored_witness :
  let w1 := step initial_world (Typed "   ") in
  analyze_begin w1 = w1 /\ step w1 ButtonClick = w1 /\
  let w2 := step (run initial_world (six_results true)) (Typed "") in
  analyze_begin w2 = w2 /\ step w2 ButtonClick = w2.
Proof.
  intros w1.
  destruct (blank_input_is_ignored initial_world "   " eq_refl)
    as (H1 & H2 & _).
  destruct (blank_input_is_ignored (run initial_world (six_results true)) ""
              eq_refl) as (H3 & H4 & _).
  exact (conj H1 (conj H2 (conj H3 H4))).
Defined.

(** In the axios variant the function itself raises an alert on a blank
    text, but the button that calls it is disabled for such a text, so a
    click does nothing there either. *)
Remark Dashboard_blank_input (f : Dashboard.Form) :
  blank (Dashboard.inputText f) = true ->
  Dashboard.analyzeText_begin f =
    (f, [Dashboard.Alert "Please enter some text to analyze"]) /\
  Dashboard.click f = (f, []).
Proof.
  intros Hb. unfold Dashboard.click, Dashboard.button_disabled,
    Dashboard.analyzeText_begin.
  rewrite Hb, orb_true_r. cbn. split; reflexivity.
Qed.

(** ** One request at a time *)

(** C7.  Along every run at most one request is outstanding.  While one
    is, the button is disabled: a click, with the same text or after any
    other text was typed, leaves the session as it is, so no second
    request goes out and nothing is folded; and the results folded so far
    plus the outstanding requests never exceed the requests issued. *)
Theorem one_request_in_flight :
  forall trace : list Event,
    let w := run initial_world trace in
    (List.length (pending w) <= 1)%nat /\
    (totalAnalyses (ui w) + List.length (pending w)
     <= List.length (outbox w))%nat /\
    (pending w <> [] ->
     isAnalyzing (ui w) = true /\
     step w ButtonClick = w /\
     forall text, let w1 := step w (Typed text) in
                  step w1 ButtonClick = w1 /\
                  outbox w1 = outbox w /\ pending w1 = pending w /\
                  totalAnalyses (ui w1) = totalAnalyses (ui w)).
Proof.
  intros trace w.
  destruct (Inv_reachable trace) as [H1 H2 _ _ H5 _ _ _].
  fold w in H1, H2, H5.
  split; [exact H1|]. split; [exact H5|].
  intros Hp.
  assert (Hbusy : isAnalyzing (ui w) = true).
  { rewrite H2. destruct (pending w); [contradiction | reflexivity]. }
  split; [exact Hbusy|]. split.
  - cbn [step]. unfold button_disabled. rewrite Hbusy. reflexivity.
  - intros text w1. split; [|repeat split; reflexivity].
    unfold w1. cbn [step with_ui ui]. unfold button_disabled.
    cbn [setInput isAnalyzing]. rewrite Hbusy. reflexivity.
Qed.

Lemma one_request_in_flight_witness :
  let w := run initial_world [Typed "first"; ButtonClick] in
  pending w = [mkClosure "first" 0] /\
  step w ButtonClick = w /\
  step (step w (Typed "second")) ButtonClick = step w (Typed "second").
Proof.
  intros w.
  destruct (one_request_in_flight [Typed "first"; ButtonClick])
    as (_ & _ & H).
  destruct H as (_ & H1 & H2); [discriminate|].
  split; [reflexivity|]. split; [exact H1|].
  destruct (H2 "second") as (H3 & _). exact H3.
Defined.

(** The guard is the [disabled] attribute of the button: the body of
    [analyze] itself does not look at [isAnalyzing]. *)
Remark analyze_body_has_no_busy_check :
  let w := run initial_world [Typed "first"; ButtonClick] in
  isAnalyzing (ui w) = true /\
  outbox (analyze_begin w) = ["first"; "first"].
Proof. split; reflexivity. Qed.

(** ** Before the first result *)

(** C8.  Along every run, as long as nothing has been folded
    ([totalAnalyses = 0]) the statistics have their initial values: the
    threat count and the average are 0, the history is empty, the safe
    percentage reads 100 and the unsafe one 0.  No reading divides: the
    first fold takes the risk score as the average, and the divisor of the
    later ones, [totalAnalyses + 1], is not zero.  The statistics of the
    axios variant start from the same values. *)
Theorem statistics_before_first_result :
  forall trace : list Event,
    let s := ui (run initial_world trace) in
    totalAnalyses s = 0%nat ->
    threatsDetected s = 0 /\
    avgRiskScore s = 0 /\
    history s = [] /\
    riskScore s = 0 /\
    safePct s = 100 /\
    unsafePct s == 0 /\
    (forall risk prevAvg, avg_update (totalAnalyses s) risk prevAvg = risk) /\
    (forall n : nat, ~ Qnat n + 1 == 0) /\
    Dashboard.total_analyses Dashboard.initial_stats = 0 /\
    Dashboard.threats_detected Dashboard.initial_stats = 0 /\
    Dashboard.average_risk_score Dashboard.initial_stats = 0 /\
    Dashboard.safe_percentage Dashboard.initial_stats = 100.
Proof.
  intros trace s Hz.
  destruct (Inv_reachable trace) as [_ _ _ H4 _ _ H7 H8].
  fold s in H4, H7, H8.
  destruct (H7 Hz) as (Ha & Ht & Hl).
  assert (Hrs : results initial_world trace = []).
  { rewrite Hz in H4. destruct (results initial_world trace);
      [reflexivity | discriminate]. }
  rewrite Hrs in H8.
  split; [exact Ht|]. split; [exact Ha|]. split; [exact H8|].
  unfold unsafePct, safePct, riskScore. rewrite Hl, Hz.
  repeat split; try reflexivity.
  apply divisor_nonzero.
Qed.

Lemma statistics_before_first_result_witness :
  let s := ui (run initial_world
                 [Typed "hello"; ButtonClick;
                  Settled 0 "now" (NetworkError "Failed to fetch");
                  ButtonClick;
                  Settled 0 "now" (Responded (mkResponse 200 JsonNull))]) in
  totalAnalyses s = 0%nat /\ threatsDetected s = 0 /\ avgRiskScore s = 0 /\
  safePct s = 100.
Proof.
  intros s. split; [reflexivity|].
  destruct (statistics_before_first_result
              [Typed "hello"; ButtonClick;
               Settled 0 "now" (NetworkError "Failed to fetch");
               ButtonClick;
               Settled 0 "now" (Responded (mkResponse 200 JsonNull))]
              eq_refl) as (H1 & H2 & _ & _ & H3 & _).
  exact (conj H1 (conj H2 H3)).
Defined.

(** ** Identifiers *)

(** The id of a history entry is the one of the response when it has one,
    and [SA-] followed by the six-digit length of the history plus one
    otherwise. *)
Lemma history_item_id (c : Closure) (now : string) (d : Data)
    (prev : list HistoryItem) :
  item_id (history_item c now d prev) =
  match id d with
  | Some remote => remote
  | None => synthesized_id prev
  end.
Proof. unfold history_item. cbn. destruct (id d); reflexivity. Qed.

(** C9, at seven responses without an id: the history is full from the
    fifth on, so the sixth and the seventh entry both get [SA-000006] and
    the ids shown in the history are not distinct. *)
Theorem synthesized_ids_collide :
  let w := run initial_world seven_without_id in
  map item_id (history (ui w)) =
    ["SA-000006"; "SA-000006"; "SA-000005"; "SA-000004"; "SA-000003"] /\
  map item_id (map snd (results initial_world seven_without_id)) =
    ["SA-000001"; "SA-000002"; "SA-000003"; "SA-000004"; "SA-000005";
     "SA-000006"; "SA-000006"] /\
  ~ NoDup (map item_id (history (ui w))).
Proof.
  assert (E : map item_id (history (ui (run initial_world seven_without_id))) =
              ["SA-000006"; "SA-000006"; "SA-000005"; "SA-000004"; "SA-000003"])
    by (vm_compute; reflexivity).
  cbv zeta. split; [exact E|]. split; [vm_compute; reflexivity|].
  rewrite E. intros H. inversion H as [|x l Hnotin _]; subst.
  apply Hnotin. left. reflexivity.
Qed.

(** ** Default verdict *)

(** C10.  When the response has no [is_safe], the entry built for the
    history is safe exactly when the risk score is below 20, that is when
    its level is LOW; this is the entry at the head of the history after
    the fold. *)
Theorem missing_verdict_defaults_to_low_risk :
  forall (c : Closure) (now : string) (d : Data) (prev : list HistoryItem),
    is_safe d = None ->
    let item := history_item c now d prev in
    item_is_safe item = Qltb (risk_of d) 20 /\
    (item_is_safe item = true <-> risk_of d < 20) /\
    (item_is_safe item = true <-> getSafetyLevel (risk_of d) = LOW) /\
    item_risk_score item = risk_of d /\
    (forall (w : World) (i : nat) (res : Response),
        nth_error (pending w) i = Some c ->
        ok res = true -> body res = JsonObject d ->
        history (ui w) = prev ->
        hd_error (history (ui (step w (Settled i now (Responded res))))) =
        Some item).
Proof.
  intros c now d prev Hnone item.
  assert (E : item_is_safe item = Qltb (risk_of d) 20).
  { unfold item, history_item. cbn. rewrite Hnone. reflexivity. }
  split; [exact E|]. split; [|split; [|split]].
  - rewrite E. apply Qltb_lt.
  - rewrite E. unfold getSafetyLevel.
    destruct (Qltb (risk_of d) 20); [tauto|].
    destruct (Qltb (risk_of d) 60); split; discriminate.
  - reflexivity.
  - intros w i res Hnth Hok Hbody Hprev.
    cbn [step]. rewrite Hnth. cbn [ui].
    rewrite (analyze_resume_ok c now res d (ui w) Hok Hbody).
    cbn [history]. unfold history_update, capacity.
    rewrite firstn_cons, Hprev. reflexivity.
Qed.

Lemma missing_verdict_defaults_to_low_risk_witness :
  item_is_safe (history_item (mkClosure "text" 0) "now" (bare 19 None) []) = true /\
  item_is_safe (history_item (mkClosure "text" 0) "now" (bare 20 None) []) = false.
Proof.
  destruct (missing_verdict_defaults_to_low_risk
              (mkClosure "text" 0) "now" (bare 19 None) [] eq_refl) as (H1 & _).
  destruct (missing_verdict_defaults_to_low_risk
              (mkClosure "text" 0) "now" (bare 20 None) [] eq_refl) as (H2 & _).
  split; [exact H1 | exact H2].
Defined.

(** * Further properties of the page *)

(** ** Requests, messages and ids along a run *)

Lemma Inv_io_initial : Inv_io initial_world [].
Proof.
  constructor; cbn.
  - reflexivity.
  - constructor.
  - intros H. now contradiction H.
  - intros c [].
  - intros k r H. destruct k; discriminate.
  - intros d H. discriminate.
Qed.

Lemma Inv_io_with_ui (f : State -> State) (w : World) log :
  Inv_io w log ->
  threatsDetected (f (ui w)) = threatsDetected (ui w) ->
  (error (f (ui w)) = error (ui w) \/ error (f (ui w)) = None) ->
  (latestResult (f (ui w)) = latestResult (ui w) \/
   latestResult (f (ui w)) = None) ->
  Inv_io (with_ui f w) log.
Proof.
  intros [H1 H2 H3 H4 H5 H6] Et Ee El.
  constructor; cbn; rewrite ?Et; auto.
  - intros Hp. destruct Ee as [-> | ->]; auto.
  - intros d. destruct El as [-> | ->]; [apply H6 | discriminate].
Qed.

Lemma history_item_id_eq (c : Closure) (now : string) (d : Data)
    (prev : list HistoryItem) :
  item_id (history_item c now d prev) = id d ?? synthesized_id prev.
Proof. reflexivity. Qed.

Lemma synthesized_id_fallback (w : World) log :
  Inv w log -> synthesized_id (history (ui w)) = fallback_id (List.length log).
Proof.
  intros HI. unfold synthesized_id, fallback_id.
  rewrite (inv_history w log HI), length_firstn, length_rev, length_map.
  rewrite Nat.min_comm. reflexivity.
Qed.

Lemma Inv_io_step (w : World) (e : Event) log :
  Inv w log -> Inv_io w log -> Inv_io (step w e) (log ++ folded_list w e).
Proof.
  intros HI HO. destruct e as [text | text | | i now o].
  - unfold folded_list; cbn. rewrite app_nil_r.
    apply Inv_io_with_ui; auto.
  - unfold folded_list; cbn. rewrite app_nil_r.
    apply Inv_io_with_ui; auto.
  - unfold folded_list; cbn. rewrite app_nil_r.
    unfold button_disabled.
    destruct (isAnalyzing (ui w)) eqn:Hbusy; cbn; [exact HO|].
    unfold analyze_begin.
    destruct (blank (input (ui w))) eqn:Hblank; cbn; [exact HO|].
    pose proof (inv_busy w log HI) as Hb. rewrite Hbusy in Hb.
    destruct (pending w) as [|c0 rest] eqn:Hp; [|discriminate].
    destruct HO as [H1 H2 H3 H4 H5 H6].
    constructor; cbn [ui pending outbox threatsDetected error setError
                      setIsAnalyzing latestResult app]; auto.
    + apply Forall_app. split; [exact H2|]. constructor; [exact Hblank | constructor].
    + intros c [<- | []]. cbn [c_input]. rewrite last_last. reflexivity.
  - unfold folded_list. cbn [step folded_by].
    destruct (nth_error (pending w) i) as [c|] eqn:Hnth.
    2:{ destruct o; rewrite ?app_nil_r; exact HO. }
    destruct (remove_nth_single i (pending w) c (inv_one_pending w log HI) Hnth)
      as (Hp & -> & Hr).
    rewrite Hr.
    pose proof (synthesized_id_fallback w log HI) as Hsid.
    destruct HO as [H1 H2 H3 H4 H5 H6].
    destruct (failed o) eqn:F.
    + destruct (analyze_resume_failed c now o (ui w) F)
        as (message & latest & -> & Hl).
      assert (Hnone : match o with
                      | NetworkError _ => None
                      | Responded res =>
                          match fields_of (body res) with
                          | Some data =>
                              if ok res
                              then Some (data, history_item c now data (history (ui w)))
                              else None
                          | None => None
                          end
                      end = None).
      { destruct o as [m | res]; cbn in *; auto.
        destruct (fields_of (body res)); auto.
        destruct (ok res); auto; discriminate. }
      rewrite Hnone, app_nil_r.
      constructor; cbn [ui pending outbox threatsDetected error latestResult]; auto.
      * intros Hne. now contradiction Hne.
      * intros c0 [].
      * intros d. destruct Hl as [-> | ->]; [apply H6 | discriminate].
    + destruct (failed_false o F) as (res & d & -> & Hok & Hbody).
      rewrite (analyze_resume_folded c now res d (ui w) Hok Hbody).
      rewrite Hbody, Hok.
      constructor; cbn [ui pending outbox threatsDetected error latestResult].
      * unfold threat_counts. rewrite map_app. cbn [map fst].
        fold (threat_counts log). rewrite Qsum_app, H1. reflexivity.
      * exact H2.
      * intros Hne. now contradiction Hne.
      * intros c0 [].
      * intros k r Hk.
        destruct (Nat.lt_ge_cases k (List.length log)) as [Hlt | Hge].
        -- rewrite nth_error_app1 in Hk by exact Hlt. apply H5, Hk.
        -- rewrite nth_error_app2 in Hk by exact Hge.
           destruct (k - List.length log)%nat as [|j] eqn:Hj.
           ++ cbn in Hk. injection Hk as <-. cbn [fst snd].
              rewrite history_item_id_eq, Hsid.
              replace k with (List.length log) by lia. reflexivity.
           ++ cbn in Hk. destruct j; discriminate.
      * intros d0 Hshown. apply shown_of_fields in Hshown.
        rewrite Hbody in Hshown. injection Hshown as <-.
        rewrite rev_app_distr. cbn. eauto.
Qed.

Lemma Inv_io_run (trace : list Event) : forall (w : World) log,
  Inv w log -> Inv_io w log ->
  Inv_io (run w trace) (log ++ results w trace).
Proof.
  induction trace as [|e trace IH]; intros w log HI HO.
  - cbn. rewrite app_nil_r. exact HO.
  - rewrite results_cons, app_assoc. cbn [run fold_left].
    apply IH; [apply Inv_step, HI | apply Inv_io_step; assumption].
Qed.

Lemma Inv_io_reachable (trace : list Event) :
  Inv_io (run initial_world trace) (results initial_world trace).
Proof.
  apply (Inv_io_run trace initial_world []);
    [apply Inv_initial | apply Inv_io_initial].
Qed.

(** ** Threat counter *)

(** X1.  Along every run, [threatsDetected] is the sum of the threat
    counts of the results folded so far (the length of [threats] when it
    is an array, [threats_detected] or 0 otherwise). *)
Theorem threats_detected_is_sum :
  forall trace : list Event,
    threatsDetected (ui (run initial_world trace)) ==
    Qsum (threat_counts (results initial_world trace)).
Proof.
  intros trace. exact (io_threats _ _ (Inv_io_reachable trace)).
Qed.

(** ** Requests *)

(** X3.  Along every run, no request with a blank text has been issued:
    every text in the outbox has a character that is not white space. *)
Theorem requests_are_never_blank :
  forall trace : list Event,
    Forall (fun t => blank t = false) (outbox (run initial_world trace)).
Proof.
  intros trace. exact (io_outbox _ _ (Inv_io_reachable trace)).
Qed.

(** X4.  Along every run, when the outstanding request succeeds with a
    response that has no [text], the entry put at the head of the history
    carries the text that was sent with the request, whatever the text
    area holds by then. *)
Theorem history_entry_has_submitted_text :
  forall (trace : list Event) (i : nat) (now : string) (res : Response)
         (d : Data) (c : Closure),
    let w := run initial_world trace in
    nth_error (pending w) i = Some c ->
    ok res = true -> body res = JsonObject d -> text d = None ->
    exists item rest,
      history (ui (step w (Settled i now (Responded res)))) = item :: rest /\
      item_text item = last (outbox w) "".
Proof.
  intros trace i now res d c w Hnth Hok Hbody Htext.
  pose proof (io_text _ _ (Inv_io_reachable trace) c) as Hc. fold w in Hc.
  cbn [step]. rewrite Hnth. cbn [ui].
  rewrite (analyze_resume_ok c now res d (ui w) Hok Hbody). cbn [history].
  unfold history_update, capacity. rewrite firstn_cons.
  eexists _, _. split; [reflexivity|].
  unfold history_item. cbn [item_text]. rewrite Htext. cbn [nullish].
  apply Hc. eapply nth_error_In. exact Hnth.
Qed.

Lemma history_entry_has_submitted_text_witness :
  let w := run initial_world [Typed "sent"; ButtonClick; Typed "edited"] in
  exists item rest,
    history (ui (step w (Settled 0 "now"
                           (Responded (mkResponse 200 (JsonObject (bare 10 None)))))))
    = item :: rest /\
    item_text item = "sent".
Proof.
  exact (history_entry_has_submitted_text
           [Typed "sent"; ButtonClick; Typed "edited"] 0 "now"
           (mkResponse 200 (JsonObject (bare 10 None))) (bare 10 None)
           (mkClosure "sent" 0) eq_refl eq_refl eq_refl eq_refl).
Defined.

(** ** Messages *)

Lemma or_else_truthy (a b : string) : truthy b = true -> truthy (or_else a b) = true.
Proof. unfold or_else. destruct (truthy a) eqn:E; auto. Qed.

(** X5.  Whatever the state, when an outstanding request fails, the error
    message set is not empty, so the alert is rendered: it is the message
    of the rejection, or the default text when that message is empty, and
    for a status outside 200-299 it is "API responded with " followed by
    the status. *)
Theorem failure_sets_a_message :
  forall (w : World) (i : nat) (now : string) (o : Outcome) (c : Closure),
    nth_error (pending w) i = Some c ->
    failed o = true ->
    let s' := ui (step w (Settled i now o)) in
    (exists message, error s' = Some message /\ truthy message = true) /\
    (forall m, o = NetworkError m ->
               error s' = Some (if truthy m then m else default_message)) /\
    (forall res, o = Responded res -> ok res = false ->
                 error s' = Some ("API responded with " ++ String_of_nat (status res))).
Proof.
  intros w i now o c Hnth F s'. unfold s'. cbn [step]. rewrite Hnth. cbn [ui].
  unfold analyze_resume, analyze_try, bind, await_fetch, await_json, deref,
    ret, call.
  destruct o as [m | res].
  - cbn. split; [|split].
    + eexists. split; [reflexivity|]. now apply or_else_truthy.
    + intros m' [= <-]. reflexivity.
    + intros res [=].
  - cbn in F. destruct (ok res) eqn:Hok.
    + cbn [negb]. destruct (body res) as [m | | d | t] eqn:Hb; cbn in F;
        try discriminate.
      * cbn. split; [|split].
        -- eexists. split; [reflexivity|]. now apply or_else_truthy.
        -- intros m' [=].
        -- intros res' [= <-]. rewrite Hok. discriminate.
      * cbn. split; [|split].
        -- eexists. split; reflexivity.
        -- intros m' [=].
        -- intros res' [= <-]. rewrite Hok. discriminate.
    + cbn. split; [|split].
      * eexists. split; reflexivity.
      * intros m' [=].
      * intros res' [= <-] _. reflexivity.
Qed.

Lemma failure_sets_a_message_witness :
  let w := run initial_world [Typed "hello"; ButtonClick] in
  error (ui (step w (Settled 0 "now" (Responded (mkResponse 503 JsonNull))))) =
  Some "API responded with 503".
Proof.
  intros w.
  destruct (failure_sets_a_message w 0 "now" (Responded (mkResponse 503 JsonNull))
              (mkClosure "hello" 0) eq_refl eq_refl) as (_ & _ & H).
  exact (H (mkResponse 503 JsonNull) eq_refl eq_refl).
Defined.

(** X6.  Along every run no error message is shown while a request is
    outstanding, and none is shown after the request has succeeded. *)
Theorem success_shows_no_error :
  forall trace : list Event,
    let w := run initial_world trace in
    (pending w <> [] -> error (ui w) = None) /\
    (forall i now res d c,
        nth_error (pending w) i = Some c ->
        ok res = true -> body res = JsonObject d ->
        error (ui (step w (Settled i now (Responded res)))) = None).
Proof.
  intros trace w.
  pose proof (io_error _ _ (Inv_io_reachable trace)) as He. fold w in He.
  split; [exact He|].
  intros i now res d c Hnth Hok Hbody.
  cbn [step]. rewrite Hnth. cbn [ui].
  rewrite (analyze_resume_ok c now res d (ui w) Hok Hbody). cbn [error].
  apply He. intros Hp. rewrite Hp in Hnth. destruct i; discriminate.
Qed.

Lemma success_shows_no_error_witness :
  let w := run initial_world
             [Typed "hello"; ButtonClick;
              Settled 0 "now" (NetworkError "Failed to fetch"); ButtonClick] in
  error (ui w) = None /\
  error (ui (step w (Settled 0 "now"
                       (Responded (mkResponse 200 (JsonObject (bare 10 None))))))) = None.
Proof.
  intros w.
  destruct (success_shows_no_error
              [Typed "hello"; ButtonClick;
               Settled 0 "now" (NetworkError "Failed to fetch"); ButtonClick])
    as (H1 & H2).
  split.
  - apply H1. discriminate.
  - exact (H2 0%nat "now" (mkResponse 200 (JsonObject (bare 10 None)))
              (bare 10 None) (mkClosure "hello" 0) eq_refl eq_refl eq_refl).
Defined.

(** ** The busy flag *)

(** X7.  Along every run the busy flag is set exactly while a request is
    outstanding.  When that request settles, in success or in failure, no
    request is outstanding any more, the flag is released, the text area
    keeps its text, and the button is enabled again unless the text is
    blank. *)
Theorem busy_flag_follows_request :
  forall trace : list Event,
    let w := run initial_world trace in
    (isAnalyzing (ui w) = true <-> pending w <> []) /\
    (forall i now o c,
        nth_error (pending w) i = Some c ->
        let w' := step w (Settled i now o) in
        pending w' = [] /\
        isAnalyzing (ui w') = false /\
        input (ui w') = input (ui w) /\
        button_disabled (ui w') = blank (input (ui w))).
Proof.
  intros trace w.
  destruct (Inv_reachable trace) as [H1 H2 _ _ _ _ _ _]. fold w in H1, H2.
  split.
  - rewrite H2. destruct (pending w); cbn; split; congruence.
  - intros i now o c Hnth w'.
    destruct (remove_nth_single i (pending w) c H1 Hnth) as (_ & _ & Hr).
    assert (E : isAnalyzing (ui w') = false /\ input (ui w') = input (ui w)).
    { unfold w'. cbn [step]. rewrite Hnth. cbn [ui].
      destruct (failed o) eqn:F.
      - destruct (analyze_resume_failed c now o (ui w) F)
          as (message & latest & -> & _). split; reflexivity.
      - destruct (failed_false o F) as (res & d & -> & Hok & Hbody).
        rewrite (analyze_resume_folded c now res d (ui w) Hok Hbody).
        split; reflexivity. }
    destruct E as [Eb Ei]. split; [|split; [exact Eb | split; [exact Ei|]]].
    + unfold w'. cbn [step]. rewrite Hnth. cbn [pending]. exact Hr.
    + unfold button_disabled. rewrite Eb, Ei. reflexivity.
Qed.

Lemma busy_flag_follows_request_witness :
  let w := run initial_world [Typed "hello"; ButtonClick] in
  isAnalyzing (ui w) = true /\
  button_disabled (ui (step w (Settled 0 "now" (NetworkError "")))) = false.
Proof.
  intros w.
  destruct (busy_flag_follows_request [Typed "hello"; ButtonClick]) as (H1 & H2).
  split.
  - apply H1. discriminate.
  - destruct (H2 0%nat "now" (NetworkError "") (mkClosure "hello" 0) eq_refl)
      as (_ & _ & _ & H).
    exact H.
Defined.

(** ** Editing while a request is outstanding *)

(** X8.  Typing in the text area or clicking an example before a request
    settles changes nothing of what the settling does to the statistics and
    to the history: the total, the threat count, the average, the history
    (ids and texts included) and the busy flag come out the same. *)
Theorem editing_does_not_change_the_fold :
  forall (w : World) (e : Event) (i : nat) (now : string) (o : Outcome),
    (exists t, e = Typed t \/ e = ExampleClick t) ->
    let s1 := ui (step (step w e) (Settled i now o)) in
    let s2 := ui (step w (Settled i now o)) in
    totalAnalyses s1 = totalAnalyses s2 /\
    threatsDetected s1 = threatsDetected s2 /\
    avgRiskScore s1 = avgRiskScore s2 /\
    history s1 = history s2 /\
    isAnalyzing s1 = isAnalyzing s2.
Proof.
  intros w e i now o (t & [-> | ->]); cbn [step with_ui pending ui];
    (destruct (nth_error (pending w) i) as [c|]; cbn [ui];
     [ unfold analyze_resume, analyze_try, bind, await_fetch, await_json, ret, call;
       destruct o as [m | res]; cbn;
       [ repeat split
       | destruct (ok res); cbn; [destruct (body res); cbn|]; repeat split ]
     | repeat split ]).
Qed.

Lemma editing_does_not_change_the_fold_witness :
  let w := run initial_world [Typed "sent"; ButtonClick] in
  let o := Responded (mkResponse 200 (JsonObject (bare 10 None))) in
  history (ui (step (step w (ExampleClick "example")) (Settled 0 "now" o))) =
  history (ui (step w (Settled 0 "now" o))).
Proof.
  intros w o.
  destruct (editing_does_not_change_the_fold w (ExampleClick "example") 0 "now" o)
    as (_ & _ & _ & H & _).
  - exists "example". right. reflexivity.
  - exact H.
Defined.

(** ** Order of the levels *)

(** X9.  [getSafetyLevel] is monotone: a higher score never gets a lower
    level. *)
Theorem getSafetyLevel_monotone :
  forall a b : Q,
    a <= b ->
    (level_rank (getSafetyLevel a) <= level_rank (getSafetyLevel b))%nat.
Proof.
  intros a b Hab. unfold getSafetyLevel.
  destruct (Qltb a 20) eqn:A1; [cbn; lia|].
  apply Qltb_ge in A1.
  destruct (Qltb b 20) eqn:B1; [apply Qltb_lt in B1; lra|].
  destruct (Qltb a 60) eqn:A2; [destruct (Qltb b 60); cbn; lia|].
  apply Qltb_ge in A2.
  destruct (Qltb b 60) eqn:B2; [apply Qltb_lt in B2; lra|].
  cbn. lia.
Qed.

Lemma getSafetyLevel_monotone_witness :
  (level_rank (getSafetyLevel (199 # 10)) <= level_rank (getSafetyLevel 60))%nat.
Proof.
  apply getSafetyLevel_monotone. discriminate.
Defined.

(** ** Ids of the results *)

Lemma idless_ids (rs : list (Data * HistoryItem)) : forall off : nat,
  (forall k r, nth_error rs k = Some r ->
               item_id (snd r) = id (fst r) ?? fallback_id (off + k)) ->
  Forall (fun r => id (fst r) = None) rs ->
  map item_id (map snd rs) = map fallback_id (seq off (List.length rs)).
Proof.
  induction rs as [|r rs IH]; intros off Hid Hall; [reflexivity|].
  inversion Hall as [|r' rs' Hr Hrs]; subst.
  cbn [map List.length seq]. f_equal.
  - rewrite (Hid 0%nat r eq_refl), Hr, Nat.add_0_r. reflexivity.
  - apply IH; [|exact Hrs].
    intros k r0 Hk. rewrite (Hid (S k) r0 Hk). f_equal. f_equal. lia.
Qed.

Lemma first_fallback_ids_distinct (n : nat) :
  (n <= 6)%nat -> NoDup (map fallback_id (seq 0 n)).
Proof.
  intros Hn.
  do 7 (destruct n as [|n];
        [ vm_compute;
          repeat (constructor; [cbn; intuition discriminate|]); constructor |]).
  lia.
Qed.

(** X10.  Along every run, the result folded after [k] others has the id
    of its response when that has one, and otherwise [SA-] followed by the
    six-digit number [min k 5 + 1]: the fallback of every result from the
    sixth on is [SA-000006].  As long as at most six results were folded
    and none came with an id, the ids given are pairwise distinct. *)
Theorem ids_of_folded_results :
  forall trace : list Event,
    let rs := results initial_world trace in
    (forall k r, nth_error rs k = Some r ->
                 item_id (snd r) = id (fst r) ?? fallback_id k) /\
    (forall k, (5 <= k)%nat -> fallback_id k = "SA-000006") /\
    (Forall (fun r => id (fst r) = None) rs ->
     (List.length rs <= 6)%nat ->
     NoDup (map item_id (map snd rs))).
Proof.
  intros trace rs.
  pose proof (io_ids _ _ (Inv_io_reachable trace)) as Hid. fold rs in Hid.
  split; [exact Hid|]. split.
  - intros k Hk. unfold fallback_id, capacity.
    rewrite Nat.min_r by exact Hk. reflexivity.
  - intros Hall Hlen. rewrite (idless_ids rs 0 Hid Hall).
    apply first_fallback_ids_distinct, Hlen.
Qed.

Lemma ids_of_folded_results_witness :
  NoDup (map item_id (map snd (results initial_world (six_results true)))).
Proof.
  destruct (ids_of_folded_results (six_results true)) as (_ & _ & H).
  apply H.
  - vm_compute. repeat constructor.
  - vm_compute. repeat constructor.
Defined.

(** ** Verdict of the latest result *)



(** * The axios variant *)

(** ** Risk badge and risk colour *)

(** X12.  [getRiskBadge] has four labels: LOW RISK exactly below 30,
    MEDIUM RISK from 30 up to but not including 60, HIGH RISK from 60 up
    to but not including 80 and CRITICAL RISK from 80 on; and
    [getRiskColor] gives green, yellow, orange and red for the same four
    ranges, so badge and colour of a score always agree. *)
Theorem getRiskBadge_thresholds :
  forall score : Q,
    let badge := Dashboard.label (Dashboard.getRiskBadge score) in
    let colour := Dashboard.getRiskColor score in
    (badge = "LOW RISK" <-> score < 30) /\
    (badge = "MEDIUM RISK" <-> 30 <= score /\ score < 60) /\
    (badge = "HIGH RISK" <-> 60 <= score /\ score < 80) /\
    (badge = "CRITICAL RISK" <-> 80 <= score) /\
    (colour = "text-green-600" <-> badge = "LOW RISK") /\
    (colour = "text-yellow-600" <-> badge = "MEDIUM RISK") /\
    (colour = "text-orange-600" <-> badge = "HIGH RISK") /\
    (colour = "text-red-600" <-> badge = "CRITICAL RISK").
Proof.
  intros score badge colour. unfold badge, colour.
  unfold Dashboard.getRiskBadge, Dashboard.getRiskColor.
  destruct (Qltb score 30) eqn:E1;
    [|destruct (Qltb score 60) eqn:E2; [|destruct (Qltb score 80) eqn:E3]];
    cbn [Dashboard.label];
    try apply Qltb_lt in E1; try apply Qltb_ge in E1;
    try apply Qltb_lt in E2; try apply Qltb_ge in E2;
    try apply Qltb_lt in E3; try apply Qltb_ge in E3;
    repeat split; intros; try discriminate; try reflexivity; try lra;
    intuition lra.
Qed.

(** ** The Analyze button *)

(** X13.  A click on the Analyze button posts the text, and sets the busy
    flag, exactly when no analysis is running, the text is not blank and it
    has at most 10,000 characters; otherwise nothing happens.  The alert of
    [analyzeText] for a blank text is never raised by a click. *)
Theorem Dashboard_click_posts_valid_text :
  forall f : Dashboard.Form,
    let valid := Dashboard.analyzing f = false /\
                 blank (Dashboard.inputText f) = false /\
                 (Z.of_nat (String.length (Dashboard.inputText f)) <= 10000)%Z in
    (valid ->
     Dashboard.click f =
       (Dashboard.mkForm (Dashboard.inputText f) true,
        [Dashboard.Post (Dashboard.inputText f)])) /\
    (~ valid -> Dashboard.click f = (f, [])) /\
    (forall message, ~ In (Dashboard.Alert message) (snd (Dashboard.click f))).
Proof.
  intros f valid. unfold valid.
  unfold Dashboard.click, Dashboard.button_disabled, Dashboard.analyzeText_begin.
  destruct (Dashboard.analyzing f) eqn:Ea; cbn [orb].
  - repeat split.
    + intros (H & _). discriminate.
    + intros message [].
  - destruct (blank (Dashboard.inputText f)) eqn:Eb; cbn [orb].
    + repeat split.
      * intros (_ & H & _). discriminate.
      * intros message [].
    + destruct (10000 <? Z.of_nat (String.length (Dashboard.inputText f)))%Z eqn:El.
      * apply Z.ltb_lt in El. repeat split.
        -- intros (_ & _ & H). lia.
        -- intros message [].
      * apply Z.ltb_ge in El. repeat split.
        -- intros H. contradiction H. auto.
        -- cbn. intros message [H | []]. discriminate.
Qed.

Lemma Dashboard_click_posts_valid_text_witness :
  Dashboard.click (Dashboard.mkForm "hello" false) =
    (Dashboard.mkForm "hello" true, [Dashboard.Post "hello"]) /\
  Dashboard.click (Dashboard.mkForm " " false) = (Dashboard.mkForm " " false, []).
Proof.
  destruct (Dashboard_click_posts_valid_text (Dashboard.mkForm "hello" false))
    as (H1 & _).
  destruct (Dashboard_click_posts_valid_text (Dashboard.mkForm " " false))
    as (_ & H2 & _).
  split.
  - apply H1. cbn. repeat split. lia.
  - apply H2. intros (_ & H & _). discriminate.
Defined.

(** ** The threat chart *)

Lemma filter_nil_iff {A : Type} (p : A -> bool) (l : list A) :
  filter p l = [] <-> Forall (fun x => p x = false) l.
Proof.
  induction l as [|x l IH]; cbn.
  - split; intros; [constructor | reflexivity].
  - destruct (p x) eqn:E; split; intros H.
    + discriminate.
    + inversion H; subst. congruence.
    + constructor; [exact E | apply IH, H].
    + inversion H; subst. apply IH. assumption.
Qed.

Lemma chart_char (c : ascii) :
  Forall (fun u => (u =? 95)%N = false /\
                   ((97 <=? u) && (u <=? 122))%N = false)
         (Dashboard.upper_char (if Ascii.eqb c "_" then " "%char else c)).
Proof.
  destruct c as [[] [] [] [] [] [] [] []]; repeat constructor.
Qed.

Lemma chart_name_chars (s : string) :
  Forall (fun u => (u =? 95)%N = false /\
                   ((97 <=? u) && (u <=? 122))%N = false)
         (Dashboard.toUpperCase (Dashboard.replace_underscores s)).
Proof.
  induction s as [|c s IH];
    cbn [Dashboard.replace_underscores Dashboard.toUpperCase]; [constructor|].
  apply Forall_app. split; [apply chart_char | exact IH].
Qed.

(** The upper case of text in a-z, digits and underscores keeps one code
    unit per character; the sharp s does not. *)
Lemma toUpperCase_lengths :
  Dashboard.toUpperCase "pii_leakage" =
    [80; 73; 73; 95; 76; 69; 65; 75; 65; 71; 69]%N /\
  Dashboard.toUpperCase (String (ascii_of_N 223) EmptyString) = [83; 83]%N.
Proof. split; reflexivity. Qed.

(** X14.  The bar chart has one row for each category of the breakdown
    whose count is positive, in the order of the breakdown and with the
    count unchanged; it is empty (and "No threat data yet" is shown)
    exactly when no count is positive; and no row name contains the code
    unit of an underscore (95) or of a letter a-z (97-122). *)
Theorem threatBreakdownData_rows :
  forall stats : Dashboard.Stats,
    let rows := Dashboard.threatBreakdownData stats in
    map snd rows =
      filter (fun count => Qltb 0 count)
             (map snd (Dashboard.threat_breakdown stats)) /\
    Forall (fun row => 0 < snd row) rows /\
    (rows = [] <->
     Forall (fun entry => snd entry <= 0) (Dashboard.threat_breakdown stats)) /\
    Forall (fun row =>
              Forall (fun u => (u =? 95)%N = false /\
                               ((97 <=? u) && (u <=? 122))%N = false)
                     (fst row)) rows.
Proof.
  intros stats rows. unfold rows, Dashboard.threatBreakdownData.
  generalize (Dashboard.threat_breakdown stats) as l. intros l.
  split; [|split; [|split]].
  - induction l as [|e l IH]; cbn; [reflexivity|].
    destruct (Qltb 0 (snd e)); cbn; rewrite IH; reflexivity.
  - induction l as [|e l IH]; cbn; [constructor|].
    destruct (Qltb 0 (snd e)) eqn:E; cbn; [|exact IH].
    constructor; [apply Qltb_lt, E | exact IH].
  - split.
    + intros H. apply map_eq_nil in H. apply filter_nil_iff in H.
      eapply Forall_impl; [|exact H]. cbn. intros e He. apply Qltb_ge, He.
    + intros H.
      assert (F : filter (fun entry : string * Q => Qltb 0 (snd entry)) l = []).
      { apply filter_nil_iff. eapply Forall_impl; [|exact H].
        cbn. intros e He. apply Qltb_ge, He. }
      rewrite F. reflexivity.
  - induction l as [|e l IH]; cbn; [constructor|].
    destruct (Qltb 0 (snd e)); cbn; [|exact IH].
    constructor; [apply chart_name_chars | exact IH].
Qed.

(** * The three-tier variant *)

(** ** Tier badge *)

(** X15.  [getTierBadge] gives the base style exactly to the tiers other
    than [proctoring_ai], [superior_safe_ai] and [human_oversight], and
    then shows the name of the tier as it came; the three known tiers have
    three different styles. *)
Theorem getTierBadge_known_tiers :
  forall tier : string,
    let badge := Tiered.getTierBadge tier in
    (Tiered.class badge = "tier-base" <->
     tier <> "proctoring_ai" /\ tier <> "superior_safe_ai" /\
     tier <> "human_oversight") /\
    (Tiered.class badge = "tier-base" -> Tiered.label badge = tier) /\
    (Tiered.class badge = "tier-proctoring" <-> tier = "proctoring_ai") /\
    (Tiered.class badge = "tier-superior" <-> tier = "superior_safe_ai") /\
    (Tiered.class badge = "tier-human" <-> tier = "human_oversight").
Proof.
  intros tier badge. unfold badge, Tiered.getTierBadge.
  destruct (String.eqb_spec tier "proctoring_ai") as [-> | N1].
  { cbn. repeat split; intros; try discriminate; try reflexivity;
      intuition congruence. }
  destruct (String.eqb_spec tier "superior_safe_ai") as [-> | N2].
  { cbn. repeat split; intros; try discriminate; try reflexivity;
      intuition congruence. }
  destruct (String.eqb_spec tier "human_oversight") as [-> | N3].
  { cbn. repeat split; intros; try discriminate; try reflexivity;
      intuition congruence. }
  cbn. repeat split; intros; try discriminate; try reflexivity; auto;
    try contradiction.
Qed.

Lemma getTierBadge_known_tiers_witness :
  Tiered.label (Tiered.getTierBadge "Proctoring_AI") = "Proctoring_AI".
Proof.
  destruct (getTierBadge_known_tiers "Proctoring_AI") as (_ & H & _).
  apply H. reflexivity.
Defined.

(** ** Text of a history entry *)

Lemma length_append (s1 s2 : string) :
  String.length (s1 ++ s2) = (String.length s1 + String.length s2)%nat.
Proof. induction s1 as [|c s1 IH]; cbn; [reflexivity | now rewrite IH]. Qed.

Lemma length_substring0 (n : nat) : forall s : string,
  (n <= String.length s)%nat -> String.length (substring 0 n s) = n.
Proof.
  induction n as [|n IH]; intros s H.
  - destruct s; reflexivity.
  - destruct s as [|c s]; cbn in *; [lia|]. rewrite IH; [reflexivity | lia].
Qed.

Lemma substring0_append (n : nat) : forall s s2 : string,
  (n <= String.length s)%nat ->
  substring 0 n (substring 0 n s ++ s2) = substring 0 n s.
Proof.
  induction n as [|n IH]; intros s s2 H.
  - destruct s; cbn; destruct s2; reflexivity.
  - destruct s as [|c s]; cbn in *; [lia|]. rewrite IH; [reflexivity | lia].
Qed.

(** X16.  The text shown for a history entry is the original text when
    that has at most 80 characters, and has exactly 83 characters
    otherwise; in both cases its first 80 characters are those of the
    original text. *)
Theorem history_text_is_bounded :
  forall original_text : string,
    let shown := Tiered.history_text original_text in
    (String.length shown <= 83)%nat /\
    ((String.length original_text <= 80)%nat -> shown = original_text) /\
    ((80 < String.length original_text)%nat -> String.length shown = 83%nat) /\
    substring 0 80 shown = substring 0 80 original_text.
Proof.
  intros t shown. unfold shown, Tiered.history_text.
  destruct (Nat.ltb_spec 80 (String.length t)) as [Hlong | Hshort].
  - assert (L : String.length (substring 0 80 t ++ "...") = 83%nat).
    { rewrite length_append, length_substring0 by lia. reflexivity. }
    split; [lia|]. split; [lia|]. split; [intros _; exact L|].
    apply substring0_append. lia.
  - split; [lia|]. split; [reflexivity|]. split; [lia | reflexivity].
Qed.

Lemma history_text_is_bounded_witness :
  Tiered.history_text "Hello, how can I help you today?" =
  "Hello, how can I help you today?".
Proof.
  destruct (history_text_is_bounded "Hello, how can I help you today?")
    as (_ & H & _).
  apply H. cbn. lia.
Defined.

(** ** History *)

Lemma firstn_cons_firstn_le {A : Type} (k n : nat) (x : A) (l : list A) :
  (S k <= n)%nat ->
  firstn (S k) (firstn n (x :: l)) = firstn (S k) (x :: l).
Proof.
  intros H. rewrite firstn_firstn. f_equal. lia.
Qed.

Lemma Tiered_history_after (A : Type) (ds : list A) : forall start : list A,
  (List.length start <= 5)%nat ->
  Tiered.history_after ds start = firstn 5 (rev ds ++ start).
Proof.
  unfold Tiered.history_after.
  induction ds as [|d ds IH]; intros start H; cbn [fold_left rev].
  - cbn [app]. symmetry. apply firstn_all2. exact H.
  - rewrite IH.
    + unfold Tiered.history_update. rewrite <- app_assoc. cbn [app].
      rewrite !firstn_app.
      destruct (Nat.le_gt_cases 5 (List.length (rev ds))) as [Hge | Hlt].
      * replace (5 - List.length (rev ds))%nat with 0%nat by lia.
        reflexivity.
      * f_equal.
        remember (5 - List.length (rev ds))%nat as k eqn:Hk.
        destruct k as [|k]; [lia|].
        rewrite firstn_cons_firstn_le by lia. reflexivity.
    + unfold Tiered.history_update. rewrite length_firstn. lia.
Qed.

(** X17.  In the three-tier variant, after the results [ds] have arrived
    (oldest first) on an empty history, the history lists the last five of
    them, newest first; its length is the smaller of 5 and the number of
    results. *)
Theorem Tiered_history_newest_first :
  forall (A : Type) (ds : list A),
    Tiered.history_after ds [] = firstn 5 (rev ds) /\
    List.length (Tiered.history_after ds []) = Nat.min 5 (List.length ds).
Proof.
  intros A ds.
  assert (E : Tiered.history_after ds [] = firstn 5 (rev ds)).
  { rewrite Tiered_history_after by (cbn; lia). rewrite app_nil_r. reflexivity. }
  split; [exact E|].
  rewrite E, length_firstn, length_rev. reflexivity.
Qed.

(** * The summary of the main variant *)

(** X18.  Along every run, the result shown in the summary is the most
    recent result folded, and the risk score and the safety level shown
    are its own (not those of the average); when no result is shown
    (before the first one, after an example was clicked, after a [null]
    body) the score reads 0, the level LOW and the safe percentage 100. *)
Theorem summary_shows_latest_result :
  forall trace : list Event,
    let s := ui (run initial_world trace) in
    let rs := results initial_world trace in
    match latestResult s with
    | Some d =>
        (exists item, hd_error (rev rs) = Some (d, item)) /\
        riskScore s = risk_of d /\
        level s = getSafetyLevel (risk_of d)
    | None => riskScore s = 0 /\ level s = LOW /\ safePct s = 100
    end.
Proof.
  intros trace s rs.
  pose proof (io_latest _ _ (Inv_io_reachable trace)) as Hl.
  fold s in Hl. fold rs in Hl.
  unfold level, riskScore, safePct.
  destruct (latestResult s) as [d|].
  - split; [apply Hl; reflexivity|]. split; reflexivity.
  - repeat split; reflexivity.
Qed.

(** * The session of the axios variant *)

Lemma Dashboard_Inv_initial : Dashboard.Inv Dashboard.initial_session.
Proof.
  constructor; cbn; auto; intros t [].
Qed.

Lemma Dashboard_click_cases (f : Dashboard.Form) :
  (Dashboard.button_disabled f = true /\ Dashboard.click f = (f, [])) \/
  (Dashboard.analyzing f = false /\ Dashboard.valid_text (Dashboard.inputText f) /\
   Dashboard.click f =
     (Dashboard.mkForm (Dashboard.inputText f) true,
      [Dashboard.Post (Dashboard.inputText f)])).
Proof.
  unfold Dashboard.click, Dashboard.valid_text.
  destruct (Dashboard.button_disabled f) eqn:E; [left; auto|right].
  unfold Dashboard.button_disabled in E.
  apply orb_false_iff in E. destruct E as [E El].
  apply orb_false_iff in E. destruct E as [Ea Eb].
  apply Z.ltb_ge in El.
  unfold Dashboard.analyzeText_begin. rewrite Eb. auto.
Qed.

Lemma Dashboard_Inv_step (s : Dashboard.Session) (e : Dashboard.Event) :
  Dashboard.Inv s -> Dashboard.Inv (Dashboard.step s e).
Proof.
  intros [H1 H2 H3 H4].
  destruct e as [text | text | | | i o | o | o]; cbn [Dashboard.step].
  - destruct (Dashboard.analyzing (Dashboard.form s)) eqn:Ea;
      [constructor; rewrite ?Ea; assumption|].
    constructor; cbn; rewrite ?Ea; auto.
    intros t Ht. destruct (Dashboard.posts s); [destruct Ht | discriminate].
  - destruct (Dashboard.analyzing (Dashboard.form s)) eqn:Ea;
      [constructor; rewrite ?Ea; assumption|].
    constructor; cbn; rewrite ?Ea; auto.
    intros t Ht. destruct (Dashboard.posts s); [destruct Ht | discriminate].
  - destruct (Dashboard_click_cases (Dashboard.form s))
      as [(_ & ->) | (Ea & Hv & ->)].
    + constructor; cbn; rewrite ?app_nil_r; auto.
    + rewrite Ea in H2.
      destruct (Dashboard.posts s) as [|t0 rest] eqn:Hp; [|discriminate].
      constructor; cbn; auto.
      * intros t [<- | []]. reflexivity.
      * intros t Ht. apply in_app_or in Ht. destruct Ht as [Ht | [Ht | []]].
        -- apply H4, Ht.
        -- injection Ht as <-. exact Hv.
  - destruct (Dashboard.history s); constructor; assumption.
  - destruct (nth_error (Dashboard.posts s) i) as [t|] eqn:Hnth;
      [|constructor; assumption].
    destruct (remove_nth_single i (Dashboard.posts s) t H1 Hnth) as (_ & _ & Hr).
    destruct o as [d | err]; constructor; cbn; rewrite ?Hr; cbn; auto;
      try (intros t0 []).
    intros t0 Ht. apply in_app_or in Ht. destruct Ht as [Ht | [Ht | []]].
    + apply H4, Ht.
    + discriminate.
  - destruct (Dashboard.stats_requests s); constructor; assumption.
  - destruct (Dashboard.history_requests s); constructor; assumption.
Qed.

Lemma Dashboard_Inv_run (trace : list Dashboard.Event) :
  forall s, Dashboard.Inv s -> Dashboard.Inv (Dashboard.run s trace).
Proof.
  induction trace as [|e trace IH]; intros s HI; [exact HI|].
  cbn [Dashboard.run fold_left]. apply IH, Dashboard_Inv_step, HI.
Qed.

(** X19.  Along every run of the axios page at most one analysis request
    is outstanding, and the busy flag is set exactly while one is.  The
    text area then still holds the text that was posted: while the flag is
    set, typing, the example buttons and the Analyze button do nothing.
    Every text ever posted is not blank and has at most 10,000
    characters. *)
Theorem Dashboard_one_request_for_shown_text :
  forall trace : list Dashboard.Event,
    let s := Dashboard.run Dashboard.initial_session trace in
    (List.length (Dashboard.posts s) <= 1)%nat /\
    (Dashboard.analyzing (Dashboard.form s) = true <-> Dashboard.posts s <> []) /\
    (forall t, In t (Dashboard.posts s) ->
               t = Dashboard.inputText (Dashboard.form s)) /\
    (forall t, In (Dashboard.Post t) (Dashboard.effects s) ->
               Dashboard.valid_text t) /\
    (Dashboard.analyzing (Dashboard.form s) = true ->
     forall text,
       Dashboard.step s (Dashboard.Typed text) = s /\
       Dashboard.step s (Dashboard.ExampleClick text) = s /\
       Dashboard.step s Dashboard.ButtonClick = s).
Proof.
  intros trace s.
  destruct (Dashboard_Inv_run trace _ Dashboard_Inv_initial) as [H1 H2 H3 H4].
  fold s in H1, H2, H3, H4.
  split; [exact H1|]. split; [|split; [exact H3 | split; [exact H4|]]].
  - rewrite H2. destruct (Dashboard.posts s); cbn; split; congruence.
  - intros Ha text. cbn [Dashboard.step]. rewrite Ha.
    split; [reflexivity|]. split; [reflexivity|].
    unfold Dashboard.click, Dashboard.button_disabled. rewrite Ha. cbn [orb].
    rewrite !app_nil_r. destruct s; reflexivity.
Qed.

Lemma Dashboard_one_request_for_shown_text_witness :
  let s := Dashboard.run Dashboard.initial_session
             [Dashboard.Typed "hello"; Dashboard.ButtonClick] in
  Dashboard.posts s = ["hello"] /\
  Dashboard.step s (Dashboard.Typed "other") = s /\
  Dashboard.step s Dashboard.ButtonClick = s.
Proof.
  intros s.
  destruct (Dashboard_one_request_for_shown_text
              [Dashboard.Typed "hello"; Dashboard.ButtonClick])
    as (_ & _ & _ & _ & H).
  destruct (H eq_refl "other") as (H1 & _ & H2).
  split; [reflexivity|]. split; [exact H1 | exact H2].
Defined.

(** X20.  Whatever the state of the axios page, when the outstanding
    analysis fails, the result, the statistics and the history stay as
    they are, no refresh is requested, the busy flag is released and
    exactly one alert is raised, whose message is not empty: the detail of
    the error response when it has one, the default text otherwise.  When
    it succeeds, the result is replaced, one refresh of the statistics and
    one of the history are requested, and no alert is raised. *)
Theorem Dashboard_analysis_outcome :
  forall (s : Dashboard.Session) (i : nat) (t : string) (o : Dashboard.PostOutcome),
    nth_error (Dashboard.posts s) i = Some t ->
    let s' := Dashboard.step s (Dashboard.PostSettled i o) in
    Dashboard.form s' = Dashboard.mkForm (Dashboard.inputText (Dashboard.form s)) false /\
    Dashboard.stats s' = Dashboard.stats s /\
    Dashboard.history s' = Dashboard.history s /\
    match o with
    | Dashboard.Rejected error =>
        Dashboard.result s' = Dashboard.result s /\
        Dashboard.stats_requests s' = Dashboard.stats_requests s /\
        Dashboard.history_requests s' = Dashboard.history_requests s /\
        Dashboard.effects s' =
          (Dashboard.effects s ++
           [Dashboard.Alert (Dashboard.alert_message error)])%list /\
        truthy (Dashboard.alert_message error) = true /\
        (forall r d m,
            Dashboard.response error = Some r -> Dashboard.data r = Some d ->
            Dashboard.detail d = Some m -> truthy m = true ->
            Dashboard.alert_message error = m)
    | Dashboard.Fulfilled data =>
        Dashboard.result s' = Some data /\
        Dashboard.stats_requests s' = S (Dashboard.stats_requests s) /\
        Dashboard.history_requests s' = S (Dashboard.history_requests s) /\
        Dashboard.effects s' = Dashboard.effects s
    end.
Proof.
  intros s i t o Hnth s'. unfold s'. cbn [Dashboard.step]. rewrite Hnth.
  destruct o as [d | err]; cbn; repeat split.
  - unfold Dashboard.alert_message. now apply or_else_truthy.
  - intros r d m Hr Hd Hm Ht. unfold Dashboard.alert_message.
    rewrite Hr, Hd, Hm. cbn [nullish]. unfold or_else. rewrite Ht. reflexivity.
Qed.

Lemma Dashboard_analysis_outcome_witness :
  let s := Dashboard.run Dashboard.initial_session
             [Dashboard.Typed "hello"; Dashboard.ButtonClick] in
  let error := Dashboard.mkAxiosError
                 (Some (Dashboard.mkErrorResponse
                          (Some (Dashboard.mkErrorData (Some "Text too long"))))) in
  Dashboard.effects (Dashboard.step s (Dashboard.PostSettled 0 (Dashboard.Rejected error)))
  = [Dashboard.Post "hello"; Dashboard.Alert "Text too long"].
Proof.
  intros s error.
  destruct (Dashboard_analysis_outcome s 0 "hello" (Dashboard.Rejected error) eq_refl)
    as (_ & _ & _ & _ & _ & _ & H & _).
  exact H.
Defined.
